(** * SensorThings backend of pygeobox: a shallow embedding

    Source: [src/pygeobox/api/backend/sensorthings.py], class
    [SensorthingsBackend].

    Text is modelled by [string], read as UTF-8 where characters above the
    ASCII range matter; Python integers by [Z], Python values read from JSON by [pyval], the
    methods of the class by computations in an exception-and-state monad
    [py] whose state records the HTTP calls issued through [self.http] and
    the records written to [LOGGER]. *)

From Stdlib Require Import ZArith Ascii String List Bool Lia.
From stdpp Require Import base list strings pretty.

Local Open Scope string_scope.
Local Open Scope Z_scope.

(** ** Text helpers of the Python runtime *)

Module PyText.

(** [s.split(sep)] for a one-character separator: never an empty list. *)
Fixpoint split (sep : ascii) (s : string) : list string :=
  match s with
  | EmptyString => [EmptyString]
  | String c rest =>
      if Ascii.eqb c sep then EmptyString :: split sep rest
      else match split sep rest with
           | [] => [String c EmptyString]
           | seg :: segs => String c seg :: segs
           end
  end.

(** [sep in s] *)
Fixpoint contains (sep : ascii) (s : string) : bool :=
  match s with
  | EmptyString => false
  | String c rest => Ascii.eqb c sep || contains sep rest
  end.

Definition hex_digit (n : nat) : ascii :=
  match String.get n "0123456789abcdef" with
  | Some c => c
  | None => "0"%char
  end.

(** The [\xNN] escape of [repr]. *)
Definition hex_escape (c : ascii) : string :=
  let n := nat_of_ascii c in
  String "\" (String "x" (String (hex_digit (Nat.div n 16))
                            (String (hex_digit (Nat.modulo n 16)) EmptyString))).

(** The double quote character. *)
Definition dquote : ascii := "034"%char.

Definition quote_for (s : string) : ascii :=
  if contains "'" s && negb (contains dquote s) then dquote else "'"%char.

(** One character of [repr(s)]; [high] says what becomes of a character
    above the ASCII range. *)
Definition repr_char (quote : ascii) (high : ascii -> string) (c : ascii) : string :=
  let n := nat_of_ascii c in
  if Ascii.eqb c quote || Ascii.eqb c "\" then String "\" (String c EmptyString)
  else if Nat.eqb n 9 then "\t"
  else if Nat.eqb n 10 then "\n"
  else if Nat.eqb n 13 then "\r"
  else if Nat.ltb n 32 || Nat.eqb n 127 then hex_escape c
  else if Nat.ltb 127 n then high c
  else String c EmptyString.

Fixpoint repr_body (quote : ascii) (high : ascii -> string) (s : string) : string :=
  match s with
  | EmptyString => EmptyString
  | String c rest => repr_char quote high c +:+ repr_body quote high rest
  end.

(** [repr(s)] of a [str]: characters above the ASCII range are taken as
    printable and kept. *)
Definition repr_str (s : string) : string :=
  let q := quote_for s in
  String q (repr_body q (fun c => String c EmptyString) s) +:+ String q EmptyString.

(** [repr(b)] of a [bytes] object, which is also what an f-string shows. *)
Definition repr_bytes (b : string) : string :=
  let q := quote_for b in
  String "b" (String q (repr_body q hex_escape b)) +:+ String q EmptyString.

(** *** [int(s)] on text *)

Definition is_space (c : ascii) : bool :=
  let n := nat_of_ascii c in
  (Nat.leb 9 n && Nat.leb n 13) || Nat.eqb n 32.

Definition digit_value (c : ascii) : option Z :=
  let n := nat_of_ascii c in
  if Nat.leb 48 n && Nat.leb n 57 then Some (Z.of_nat n - 48) else None.

Definition is_digit (c : ascii) : bool :=
  match digit_value c with Some _ => true | None => false end.

Fixpoint lstrip (s : string) : string :=
  match s with
  | String c rest => if is_space c then lstrip rest else s
  | EmptyString => EmptyString
  end.

Fixpoint all_space (s : string) : bool :=
  match s with
  | String c rest => is_space c && all_space rest
  | EmptyString => true
  end.

(** The digits after the first one: single underscores may separate
    digits; the text left over is returned with the value. *)
Fixpoint scan_digits (acc : Z) (s : string) : option (Z * string) :=
  match s with
  | EmptyString => Some (acc, EmptyString)
  | String c rest =>
      match digit_value c with
      | Some d => scan_digits (10 * acc + d) rest
      | None =>
          if Ascii.eqb c "_" then
            match rest with
            | String c' rest' =>
                match digit_value c' with
                | Some d => scan_digits (10 * acc + d) rest'
                | None => None
                end
            | EmptyString => None
            end
          else Some (acc, s)
      end
  end.

Definition parse_magnitude (s : string) : option Z :=
  match s with
  | String c rest =>
      match digit_value c with
      | Some d =>
          match scan_digits d rest with
          | Some (v, tail) => if all_space tail then Some v else None
          | None => None
          end
      | None => None
      end
  | EmptyString => None
  end.

(** The conversion of ASCII text in base 10 ([PyLong_FromString]):
    surrounding white space, an optional sign, digits with single
    underscores between them; [None] stands for [ValueError]. The
    conversion is the unbounded one. *)
Definition long_from_string (s : string) : option Z :=
  match lstrip s with
  | String c rest =>
      if Ascii.eqb c "-" then Z.opp <$> parse_magnitude rest
      else if Ascii.eqb c "+" then parse_magnitude rest
      else parse_magnitude (String c rest)
  | EmptyString => None
  end.

(** White space above the ASCII range ([str.isspace]). *)
Definition unicode_space (cp : N) : bool :=
  ((cp =? 133) || (cp =? 160) || (cp =? 5760)
   || ((8192 <=? cp) && (cp <=? 8202))
   || (cp =? 8232) || (cp =? 8233) || (cp =? 8239) || (cp =? 8287)
   || (cp =? 12288))%N.

(** The code points of the digit zero of every decimal script above the
    ASCII range (Unicode 14.0); the nine digits after each follow it. *)
Definition decimal_zeros : list N :=
  [1632; 1776; 1984; 2406; 2534; 2662; 2790; 2918; 3046; 3174; 3302; 3430;
   3558; 3664; 3792; 3872; 4160; 4240; 6112; 6160; 6470; 6608; 6784; 6800;
   6992; 7088; 7232; 7248; 42528; 43216; 43264; 43472; 43504; 43600; 44016;
   65296; 66720; 68912; 69734; 69872; 69942; 70096; 70384; 70736; 70864;
   71248; 71360; 71472; 71904; 72016; 72784; 73040; 73120; 92768; 92864;
   93008; 120782; 120792; 120802; 120812; 120822; 123200; 123632; 125264;
   130032]%N.

(** The decimal value of a code point above the ASCII range. *)
Definition unicode_decimal (cp : N) : option N :=
  match List.find (fun zero => (zero <=? cp) && (cp <? zero + 10))%N decimal_zeros with
  | Some zero => Some (cp - zero)%N
  | None => None
  end.

(** What [int] reads a character above the ASCII range as: a space for
    white space, the ASCII digit for a decimal digit, nothing otherwise. *)
Definition ascii_of_code (cp : N) : option ascii :=
  if unicode_space cp then Some " "%char
  else match unicode_decimal cp with
       | Some d => Some (ascii_of_N (48 + d))
       | None => None
       end.

Definition continuation (n : N) : bool := ((128 <=? n) && (n <=? 191))%N.

(** The text [int] hands to the conversion: text is UTF-8; ASCII
    characters stay, white space and decimal digits above the ASCII range
    become a space and the ASCII digit, and the first character that is
    neither (or a malformed sequence) becomes a question mark that ends
    the text. *)
Fixpoint ascii_form (s : string) : string :=
  let emit (cp : N) (tail : string) : string :=
    match ascii_of_code cp with
    | Some c => String c tail
    | None => "?"
    end in
  match s with
  | EmptyString => EmptyString
  | String b0 rest =>
      let n0 := N_of_ascii b0 in
      if (n0 <? 128)%N then String b0 (ascii_form rest)
      else
        match rest with
        | EmptyString => "?"
        | String b1 rest1 =>
            let n1 := N_of_ascii b1 in
            if ((194 <=? n0) && (n0 <=? 223) && continuation n1)%N then
              emit ((n0 - 192) * 64 + (n1 - 128))%N (ascii_form rest1)
            else
              match rest1 with
              | EmptyString => "?"
              | String b2 rest2 =>
                  let n2 := N_of_ascii b2 in
                  let cp3 := ((n0 - 224) * 4096 + (n1 - 128) * 64 + (n2 - 128))%N in
                  if ((224 <=? n0) && (n0 <=? 239) && continuation n1
                      && continuation n2 && (2048 <=? cp3)
                      && negb ((55296 <=? cp3) && (cp3 <=? 57343)))%N then
                    emit cp3 (ascii_form rest2)
                  else
                    match rest2 with
                    | EmptyString => "?"
                    | String b3 rest3 =>
                        let n3 := N_of_ascii b3 in
                        let cp4 := ((n0 - 240) * 262144 + (n1 - 128) * 4096
                                    + (n2 - 128) * 64 + (n3 - 128))%N in
                        if ((240 <=? n0) && (n0 <=? 244) && continuation n1
                            && continuation n2 && continuation n3
                            && (65536 <=? cp4) && (cp4 <=? 1114111))%N then
                          emit cp4 (ascii_form rest3)
                        else "?"
                    end
              end
        end
  end.

(** [int(s)] in base 10 on a [str]; [None] stands for [ValueError]. *)
Definition parse_int (s : string) : option Z := long_from_string (ascii_form s).

(** The value of a text made of digits only. *)
Fixpoint digits_value (acc : Z) (s : string) : Z :=
  match s with
  | EmptyString => acc
  | String c rest =>
      digits_value (10 * acc + default 0 (digit_value c)) rest
  end.

Fixpoint all_digits (s : string) : bool :=
  match s with
  | EmptyString => true
  | String c rest => is_digit c && all_digits rest
  end.

(** A purely numeric text: not empty, digits only. *)
Definition purely_numeric (s : string) : bool :=
  match s with
  | EmptyString => false
  | String _ _ => all_digits s
  end.

(** *** The texts [int] accepts, told by their shape *)








End PyText.

(** ** Python values *)

#[warnings="-register-all"]
Inductive pyval : Type :=
| PNone
| PBool (b : bool)
| PInt (z : Z)
| PFloat (shown : string)
| PStr (s : string)
| PList (l : list pyval)
| PDict (d : list (string * pyval)).

(** [repr(v)]; a float carries the text Python shows for it. *)
Fixpoint py_repr (v : pyval) : string :=
  match v with
  | PNone => "None"
  | PBool true => "True"
  | PBool false => "False"
  | PInt z => pretty z
  | PFloat shown => shown
  | PStr s => PyText.repr_str s
  | PList l =>
      "[" +:+
      (fix items (l : list pyval) : string :=
         match l with
         | [] => ""
         | x :: rest =>
             py_repr x +:+ match rest with [] => "" | _ => ", " +:+ items rest end
         end) l +:+ "]"
  | PDict d =>
      "{" +:+
      (fix entries (d : list (string * pyval)) : string :=
         match d with
         | [] => ""
         | (k, x) :: rest =>
             PyText.repr_str k +:+ ": " +:+ py_repr x +:+
             match rest with [] => "" | _ => ", " +:+ entries rest end
         end) d +:+ "}"
  end.

(** [str(v)], which is what [f'{v}'] shows. *)
Definition py_str (v : pyval) : string :=
  match v with
  | PStr s => s
  | _ => py_repr v
  end.

(** ** Exceptions *)

Inductive exn : Type :=
| NotImplementedError
| ValueError (msg : string)
| KeyError (key : string)
| TypeError (msg : string)
| JSONDecodeError (msg : string)
| TransportError (msg : string).

(** [str(err)] *)
Definition exn_str (e : exn) : string :=
  match e with
  | NotImplementedError => ""
  | ValueError msg => msg
  | KeyError key => PyText.repr_str key
  | TypeError msg => msg
  | JSONDecodeError msg => msg
  | TransportError msg => msg
  end.

(** [isinstance(err, ValueError)]: the JSON decoding error of [requests]
    derives from [ValueError]. *)
Definition is_ValueError (e : exn) : bool :=
  match e with
  | ValueError _ | JSONDecodeError _ => true
  | _ => false
  end.

(** [isinstance(err, Exception)] *)
Definition is_Exception (e : exn) : bool := true.

(** ** The HTTP session and the logger *)

Inductive verb : Type := GET | POST | PATCH | DELETE.

(** A call of [self.http]: the verb, the URL and the [data=] body. *)
Record request : Type := Request {
  req_verb : verb;
  req_url : string;
  req_data : option string
}.

(** What the adapter reads of a [requests.Response]: [json_body] is [None]
    when the body is not JSON, in which case [.json()] raises. *)
Record response : Type := Response {
  status_code : Z;
  content : string;
  json_body : option pyval
}.

(** [Response.ok] of [requests]: no client or server error status. *)
Definition ok (r : response) : bool :=
  negb ((400 <=? status_code r) && (status_code r <? 600)).

(** A call either comes back with a response or raises. *)
Inductive outcome : Type :=
| Responds (r : response)
| Fails (e : exn).

(** The remote service: its answer to a call, given the calls before it. *)
Definition service : Type := list request -> request -> outcome.

Inductive level : Type := DEBUG | ERROR.

Record world : Type := World {
  calls : list request;
  log : list (level * string)
}.

(** ** Computations that may raise *)

Inductive result (A : Type) : Type :=
| Returned (a : A)
| Raised (e : exn).
Arguments Returned {A} a.
Arguments Raised {A} e.

Definition py (A : Type) : Type := world -> result A * world.

#[global] Instance py_ret : MRet py := fun A a w => (Returned a, w).

#[global] Instance py_bind : MBind py := fun A B k m w =>
  match m w with
  | (Returned a, w') => k a w'
  | (Raised e, w') => (Raised e, w')
  end.

#[global] Instance py_fmap : FMap py := fun A B f m w =>
  match m w with
  | (Returned a, w') => (Returned (f a), w')
  | (Raised e, w') => (Raised e, w')
  end.

Definition raise {A : Type} (e : exn) : py A := fun w => (Raised e, w).

(** [try: body / except <class> as err: handler err] *)
Definition try_except {A : Type} (body : py A) (catches : exn -> bool)
    (handler : exn -> py A) : py A := fun w =>
  match body w with
  | (Returned a, w') => (Returned a, w')
  | (Raised e, w') => if catches e then handler e w' else (Raised e, w')
  end.

Definition logger (lvl : level) (msg : string) : py unit := fun w =>
  (Returned tt, {| calls := calls w; log := log w ++ [(lvl, msg)] |}).

(** [int(s)] *)
Definition py_int (s : string) : py Z :=
  match PyText.parse_int s with
  | Some z => mret z
  | None =>
      raise (ValueError ("invalid literal for int() with base 10: " +:+ PyText.repr_str s))
  end.

(** [d.get(key)] and the lookup behind [v[key]] *)
Fixpoint dict_get (d : list (string * pyval)) (key : string) : option pyval :=
  match d with
  | [] => None
  | (k, x) :: rest => if String.eqb k key then Some x else dict_get rest key
  end.

(** [type(v).__name__] *)
Definition type_name (v : pyval) : string :=
  match v with
  | PNone => "NoneType"
  | PBool _ => "bool"
  | PInt _ => "int"
  | PFloat _ => "float"
  | PStr _ => "str"
  | PList _ => "list"
  | PDict _ => "dict"
  end.

(** [v[key]] with a text key *)
Definition getitem (v : pyval) (key : string) : py pyval :=
  match v with
  | PDict d =>
      match dict_get d key with
      | Some x => mret x
      | None => raise (KeyError key)
      end
  | PList _ => raise (TypeError "list indices must be integers or slices, not str")
  | PStr _ => raise (TypeError "string indices must be integers, not 'str'")
  | _ => raise (TypeError ("'" +:+ type_name v +:+ "' object is not subscriptable"))
  end.

Fixpoint chars (s : string) : list pyval :=
  match s with
  | EmptyString => []
  | String c rest => PStr (String c EmptyString) :: chars rest
  end.

(** The elements [for x in v] goes through. *)
Definition iterate (v : pyval) : py (list pyval) :=
  match v with
  | PList l => mret l
  | PDict d => mret (map (fun kv => PStr (fst kv)) d)
  | PStr s => mret (chars s)
  | _ => raise (TypeError ("'" +:+ type_name v +:+ "' object is not iterable"))
  end.

(** [r.json()] *)
Definition json (r : response) : py pyval :=
  match json_body r with
  | Some v => mret v
  | None => raise (JSONDecodeError "Expecting value: line 1 column 1 (char 0)")
  end.

(** ** The backend *)

Record SensorthingsBackend : Type := Backend {
  type : string;
  url : string
}.

Section Backend.

(** [url_join] and [to_json] of [pygeobox.util] are not part of the source
    at hand: the adapter is modelled over them. *)
Variable url_join : list pyval -> string.
Variable to_json : pyval -> string.

(** The service [self.http] talks to. *)
Variable remote : service.

(** A call is recorded when it is issued, whatever comes of it. *)
Definition send (q : request) : py response := fun w =>
  let w' := {| calls := calls w ++ [q]; log := log w |} in
  match remote (calls w) q with
  | Responds r => (Returned r, w')
  | Fails e => (Raised e, w')
  end.

Definition http_get (u : string) : py response := send (Request GET u None).
Definition http_delete (u : string) : py response := send (Request DELETE u None).
Definition http_post (u data : string) : py response := send (Request POST u (Some data)).
Definition http_patch (u data : string) : py response := send (Request PATCH u (Some data)).

(** [__init__]: [defs] is the mapping of connection parameters; the
    initializer of the base class is left out. *)
Definition init (defs : list (string * pyval)) : SensorthingsBackend :=
  {| type := "SensorThings";
     url := url_join [default PNone (dict_get defs "url")] |}.

(** [sta_id]: [split] never gives an empty list, so [pop] has a last
    element to give. *)
Definition sta_id (self : SensorthingsBackend) (collection_id : string) : string :=
  let entity := List.last (PyText.split "." collection_id) EmptyString in
  url_join [PStr (url self); PStr entity].

Definition add_collection (self : SensorthingsBackend) (collection_id : string)
    : py pyval :=
  raise NotImplementedError.

(** The [for] loop of [delete_collection]. *)
Fixpoint delete_collection_loop (sta_index : string) (items : list pyval) : py bool :=
  match items with
  | [] => mret true
  | item :: rest =>
      item_id ← getitem item "@iot.id";
      del_result ← http_delete (sta_index +:+ "(" +:+ py_str item_id +:+ ")");
      if negb (status_code del_result =? 200) then
        shown ← getitem item "@iot.id";
        logger ERROR ("Failed to delete " +:+ py_str shown +:+ ": "
                      +:+ PyText.repr_bytes (content del_result));;
        mret false
      else delete_collection_loop sta_index rest
  end.

Definition delete_collection (self : SensorthingsBackend) (collection_id : string)
    : py bool :=
  let sta_index := sta_id self collection_id in
  listing ← http_get sta_index;
  response ← json listing;
  value ← getitem response "value";
  items ← iterate value;
  delete_collection_loop sta_index items.

Definition has_collection (self : SensorthingsBackend) (collection_id : string)
    : py bool :=
  mret true.

(** The call one entity of [upsert_collection_items] gives rise to. *)
Definition upsert_call (sta_index : string) (method : string) (entity : pyval)
    : py response :=
  if String.eqb method "PATCH" then
    item_id ← getitem entity "@iot.id";
    let target := sta_index +:+ "('" +:+ py_str item_id +:+ "')" in
    http_patch target (to_json entity)
  else if String.eqb method "DELETE" then
    item_id ← getitem entity "@iot.id";
    http_delete (sta_index +:+ "(" +:+ py_str item_id +:+ ")")
  else if String.eqb method "POST" then
    http_post sta_index (to_json entity)
  else
    raise (ValueError ("Unsupported method: " +:+ method)).

(** The [for] loop of [upsert_collection_items]. *)
Fixpoint upsert_loop (sta_index : string) (method : string) (items : list pyval)
    : py bool :=
  match items with
  | [] => mret true
  | entity :: rest =>
      r ← upsert_call sta_index method entity;
      if negb (ok r) then mret false
      else upsert_loop sta_index method rest
  end.

Definition upsert_collection_items (self : SensorthingsBackend)
    (collection_id : string) (items : list pyval) (method : string) : py bool :=
  let sta_index := sta_id self collection_id in
  upsert_loop sta_index method items.

Definition delete_collection_item (self : SensorthingsBackend)
    (collection_id : string) (item_id : string) : py bool :=
  logger DEBUG ("Deleting " +:+ item_id +:+ " from " +:+ collection_id);;
  let sta_index := sta_id self collection_id in
  item_id' ← try_except (PInt <$> py_int item_id) is_ValueError
                (fun _ => mret (PStr ("'" +:+ item_id +:+ "'")));
  returned ← try_except
      (http_delete (sta_index +:+ "(" +:+ py_str item_id' +:+ ")");;
       mret None)
      is_Exception
      (fun err =>
         let msg := "Item deletion failed: " +:+ exn_str err in
         logger ERROR msg;;
         mret (Some false));
  match returned with
  | Some b => mret b
  | None => mret true
  end.

Definition __repr__ (self : SensorthingsBackend) : string :=
  "<SensorthingsBackend> (url=" +:+ url self +:+ ")".

End Backend.

(** ** Reading the runs *)

(** The answers of the service to a sequence of calls issued one after the
    other, starting after [history]. *)
Fixpoint answers (remote : service) (history : list request) (qs : list request)
    : list outcome :=
  match qs with
  | [] => []
  | q :: rest => remote history q :: answers remote (history ++ [q])%list rest
  end.

(** The identifier an entity carries under ["@iot.id"], when it is a
    mapping that has one. *)
Definition entity_id (entity : pyval) : option pyval :=
  match entity with
  | PDict d => dict_get d "@iot.id"
  | _ => None
  end.

(** The [2xx] class of HTTP statuses, the successful ones. *)
Definition success_status (s : Z) : bool := (200 <=? s) && (s <? 300).

(** The DELETE call addressing an identifier without quotes. *)
Definition delete_of (sta_index : string) (i : pyval) : request :=
  Request DELETE (sta_index +:+ "(" +:+ py_str i +:+ ")") None.

(** The PATCH call addressing an identifier between single quotes. *)
Definition patch_of (sta_index : string) (data : string) (i : pyval) : request :=
  Request PATCH (sta_index +:+ "('" +:+ py_str i +:+ "')") (Some data).

(** The call the method selector asks for on one entity: a create for
    [POST], an update for [PATCH], a removal for [DELETE]; none when the
    selector is another one or the identifier needed is missing. *)
Definition upsert_request (to_json : pyval -> string) (sta_index method : string)
    (entity : pyval) : option request :=
  if String.eqb method "POST" then
    Some (Request POST sta_index (Some (to_json entity)))
  else if String.eqb method "PATCH" then
    patch_of sta_index (to_json entity) <$> entity_id entity
  else if String.eqb method "DELETE" then
    delete_of sta_index <$> entity_id entity
  else None.

(** The identifier as [delete_collection_item] puts it in the path: the
    number [int] reads, or else the text between single quotes. *)
Definition item_segment (item_id : string) : string :=
  match PyText.parse_int item_id with
  | Some z => py_str (PInt z)
  | None => py_str (PStr ("'" +:+ item_id +:+ "'"))
  end.

Definition with_calls (w : world) (qs : list request) : world :=
  {| calls := (calls w ++ qs)%list; log := log w |}.

Definition with_log (w : world) (records : list (level * string)) : world :=
  {| calls := calls w; log := (log w ++ records)%list |}.

(** ** Examples of the missing helpers, for concrete runs *)

Module Scenario.

(** Modelled from the spec: [url_join] of [pygeobox.util] is not in the
    source at hand; the spec has the segment joined to the base URL, here
    with a slash between the parts. *)
Fixpoint url_join (parts : list pyval) : string :=
  match parts with
  | [] => ""
  | [p] => py_str p
  | p :: rest => py_str p +:+ "/" +:+ url_join rest
  end.

(** Modelled from the spec: [to_json] of [pygeobox.util] is not in the
    source at hand; the spec has request bodies serialized as JSON. *)
Definition json_text (s : string) : string :=
  String PyText.dquote (PyText.repr_body PyText.dquote (fun c => String c EmptyString) s)
  +:+ String PyText.dquote EmptyString.

Fixpoint to_json (v : pyval) : string :=
  match v with
  | PNone => "null"
  | PBool true => "true"
  | PBool false => "false"
  | PInt z => pretty z
  | PFloat shown => shown
  | PStr s => json_text s
  | PList l =>
      "[" +:+
      (fix items (l : list pyval) : string :=
         match l with
         | [] => ""
         | x :: rest =>
             to_json x +:+ match rest with [] => "" | _ => ", " +:+ items rest end
         end) l +:+ "]"
  | PDict d =>
      "{" +:+
      (fix entries (d : list (string * pyval)) : string :=
         match d with
         | [] => ""
         | (k, x) :: rest =>
             json_text k +:+ ": " +:+ to_json x +:+
             match rest with [] => "" | _ => ", " +:+ entries rest end
         end) d +:+ "}"
  end.

Definition backend : SensorthingsBackend := init url_join [("url", PStr "http://sta.example/v1.1")].

Definition fresh : world := {| calls := []; log := [] |}.

Definition thing (i : Z) : pyval := PDict [("@iot.id", PInt i)].

Definition listing (items : list pyval) : response :=
  {| status_code := 200; content := ""; json_body := Some (PDict [("value", PList items)]) |}.

Definition plain (status : Z) : response :=
  {| status_code := status; content := ""; json_body := None |}.

(** A service that lists two things and answers every other call with a
    status chosen by the URL of the call. *)
Definition two_things (status_of : string -> Z) : service := fun _ q =>
  match req_verb q with
  | GET => Responds (listing [thing 1; thing 2])
  | _ => Responds (plain (status_of (req_url q)))
  end.

(** A service whose every call fails in transport. *)
Definition unreachable : service := fun _ _ =>
  Fails (TransportError "Connection refused").

End Scenario.

(** ** Facts about the text helpers *)

Module PyTextFacts.
Import PyText.

Lemma append_assoc (s1 s2 s3 : string) :
  (s1 +:+ s2) +:+ s3 = s1 +:+ (s2 +:+ s3).
Proof.
  induction s1 as [|c s1 IH]; [reflexivity|].
  change (String c ((s1 +:+ s2) +:+ s3) = String c (s1 +:+ (s2 +:+ s3))).
  now rewrite IH.
Qed.

Lemma split_not_nil (sep : ascii) (s : string) : split sep s <> [].
Proof.
  destruct s as [|c rest]; simpl; [discriminate|].
  destruct (Ascii.eqb c sep); [discriminate|].
  destruct (split sep rest); discriminate.
Qed.

Lemma split_without_sep (sep : ascii) (s : string) :
  contains sep s = false -> split sep s = [s].
Proof.
  induction s as [|c rest IH]; simpl; [reflexivity|].
  intros H. apply orb_false_iff in H as [Hc Hrest].
  rewrite Hc, (IH Hrest). reflexivity.
Qed.

Lemma split_app (sep : ascii) (p s : string) :
  split sep (p +:+ String sep s) = (split sep p ++ split sep s)%list.
Proof.
  induction p as [|c p IH]; simpl.
  - rewrite Ascii.eqb_refl. reflexivity.
  - destruct (Ascii.eqb c sep); rewrite IH; [reflexivity|].
    pose proof (split_not_nil sep p) as Hne.
    destruct (split sep p); [contradiction|reflexivity].
Qed.

Lemma last_app_not_nil {A : Type} (l1 l2 : list A) (d : A) :
  l2 <> [] -> List.last (l1 ++ l2)%list d = List.last l2 d.
Proof.
  intros Hne. induction l1 as [|x l1 IH]; [reflexivity|].
  simpl. destruct (l1 ++ l2)%list eqn:E; [|exact IH].
  apply app_eq_nil in E as [_ E]. contradiction.
Qed.

Lemma last_split_app (sep : ascii) (p seg : string) :
  contains sep seg = false ->
  List.last (split sep (p +:+ String sep seg)) EmptyString = seg.
Proof.
  intros Hfree. rewrite split_app, last_app_not_nil by apply split_not_nil.
  rewrite (split_without_sep _ _ Hfree). reflexivity.
Qed.

(** A text with a separator in it ends with a separator followed by a
    segment free of separators. *)
Lemma contains_last_segment (sep : ascii) (s : string) :
  contains sep s = true ->
  exists p seg, s = p +:+ String sep seg /\ contains sep seg = false.
Proof.
  induction s as [|c rest IH]; simpl; [discriminate|].
  intros H. destruct (contains sep rest) eqn:Hrest.
  - destruct (IH eq_refl) as (p & seg & -> & Hfree).
    exists (String c p), seg. split; [reflexivity|exact Hfree].
  - rewrite orb_false_r in H. apply Ascii.eqb_eq in H as ->.
    exists EmptyString, rest. split; [reflexivity|exact Hrest].
Qed.

Lemma digit_not_space (c : ascii) : is_digit c = true -> is_space c = false.
Proof.
  destruct c as [[] [] [] [] [] [] [] []]; vm_compute; congruence.
Qed.

Lemma digit_not_sign (c : ascii) :
  is_digit c = true -> Ascii.eqb c "-" = false /\ Ascii.eqb c "+" = false.
Proof.
  destruct c as [[] [] [] [] [] [] [] []]; vm_compute; intuition congruence.
Qed.

Lemma scan_all_digits (s : string) (acc : Z) :
  all_digits s = true -> scan_digits acc s = Some (digits_value acc s, EmptyString).
Proof.
  revert acc. induction s as [|c rest IH]; intros acc; simpl; [reflexivity|].
  intros H. apply andb_true_iff in H as [Hc Hrest].
  unfold is_digit in Hc. destruct (digit_value c) as [d|]; [|discriminate].
  simpl. apply IH, Hrest.
Qed.

Lemma long_from_string_purely_numeric (s : string) :
  purely_numeric s = true -> long_from_string s = Some (digits_value 0 s).
Proof.
  destruct s as [|c rest]; [discriminate|].
  unfold purely_numeric. simpl all_digits. intros H.
  apply andb_true_iff in H as [Hc Hrest].
  unfold long_from_string. simpl lstrip. rewrite (digit_not_space c Hc).
  destruct (digit_not_sign c Hc) as [-> ->].
  unfold parse_magnitude. simpl digits_value.
  unfold is_digit in Hc. destruct (digit_value c) as [d|]; [|discriminate].
  rewrite (scan_all_digits rest _ Hrest). reflexivity.
Qed.

Lemma ascii_form_head (c : ascii) (rest : string) :
  (N_of_ascii c <? 128)%N = true ->
  ascii_form (String c rest) = String c (ascii_form rest).
Proof.
  intros H. cbn [ascii_form]. cbv zeta. now rewrite H.
Qed.

Lemma digit_is_ascii (c : ascii) :
  is_digit c = true -> (N_of_ascii c <? 128)%N = true.
Proof.
  destruct c as [[] [] [] [] [] [] [] []]; vm_compute; congruence.
Qed.

(** A text of digits is its own ASCII form. *)
Lemma ascii_form_digits (s : string) : all_digits s = true -> ascii_form s = s.
Proof.
  induction s as [|c rest IH]; [reflexivity|].
  simpl all_digits. intros H. apply andb_true_iff in H as [Hc Hrest].
  now rewrite (ascii_form_head c rest (digit_is_ascii c Hc)), (IH Hrest).
Qed.

(** [int] reads a purely numeric text as the number its digits spell. *)
Lemma parse_int_purely_numeric (s : string) :
  purely_numeric s = true -> parse_int s = Some (digits_value 0 s).
Proof.
  intros H. unfold parse_int.
  assert (Hall : all_digits s = true) by (destruct s; [discriminate|exact H]).
  rewrite (ascii_form_digits s Hall). now apply long_from_string_purely_numeric.
Qed.

End PyTextFacts.

(** ** The endpoint of a collection *)

(** C6. For every collection identifier with a dot in it, the identifier
    ends with a dot followed by a dot-free segment, [sta_id] is the join of
    the configured base URL with that last segment alone, and whatever
    stands before the last dot has no part in the result. *)
Theorem sta_id_trailing_segment
    (url_join : list pyval -> string) (self : SensorthingsBackend)
    (collection_id : string) :
  PyText.contains "." collection_id = true ->
  exists earlier entity,
    collection_id = earlier +:+ "." +:+ entity /\
    PyText.contains "." entity = false /\
    sta_id url_join self collection_id = url_join [PStr (url self); PStr entity] /\
    forall other,
      sta_id url_join self (other +:+ "." +:+ entity) = sta_id url_join self collection_id.
Proof.
  intros Hdot.
  destruct (PyTextFacts.contains_last_segment _ _ Hdot) as (p & seg & -> & Hfree).
  exists p, seg. unfold sta_id.
  repeat split; try assumption.
  - now rewrite (PyTextFacts.last_split_app "." p seg Hfree).
  - intros other. now rewrite !(PyTextFacts.last_split_app "." _ seg Hfree).
Qed.

Lemma sta_id_trailing_segment_witness :
  PyText.contains "." "wis2box.data.Things" = true /\
  exists earlier entity,
    "wis2box.data.Things" = earlier +:+ "." +:+ entity /\
    PyText.contains "." entity = false /\
    sta_id Scenario.url_join Scenario.backend "wis2box.data.Things"
      = Scenario.url_join [PStr (url Scenario.backend); PStr entity] /\
    forall other,
      sta_id Scenario.url_join Scenario.backend (other +:+ "." +:+ entity)
      = sta_id Scenario.url_join Scenario.backend "wis2box.data.Things".
Proof.
  split; [reflexivity|].
  apply (sta_id_trailing_segment Scenario.url_join Scenario.backend "wis2box.data.Things").
  reflexivity.
Defined.

(** An identifier without a dot is its own segment. *)
Lemma sta_id_no_dot (url_join : list pyval -> string) (self : SensorthingsBackend)
    (collection_id : string) :
  PyText.contains "." collection_id = false ->
  sta_id url_join self collection_id = url_join [PStr (url self); PStr collection_id].
Proof.
  intros H. unfold sta_id. now rewrite (PyTextFacts.split_without_sep _ _ H).
Qed.

Example sta_id_things :
  sta_id Scenario.url_join Scenario.backend "wis2box.data.Things"
  = "http://sta.example/v1.1/Things".
Proof. reflexivity. Qed.

(** ** Operations that do not touch the service *)

(** C7. [add_collection] raises [NotImplementedError] for every collection
    identifier: it returns no value and leaves the record of HTTP calls
    (and the log) as it found them. *)
Theorem add_collection_not_implemented
    (self : SensorthingsBackend) (collection_id : string) (w : world) :
  add_collection self collection_id w = (Raised NotImplementedError, w).
Proof. reflexivity. Qed.

(** C8. [has_collection] returns [True] for every collection identifier,
    with no HTTP call issued, whatever the service holds. *)
Theorem has_collection_always_true
    (self : SensorthingsBackend) (collection_id : string) (w : world) :
  has_collection self collection_id w = (Returned true, w).
Proof. reflexivity. Qed.

(** ** Stepping through the monad *)

Lemma with_calls_nil (w : world) : with_calls w [] = w.
Proof. destruct w. unfold with_calls. simpl. now rewrite app_nil_r. Qed.

Lemma with_calls_app (w : world) (qs1 qs2 : list request) :
  with_calls (with_calls w qs1) qs2 = with_calls w (qs1 ++ qs2)%list.
Proof. unfold with_calls. simpl. now rewrite app_assoc. Qed.

Lemma bind_returned {A B : Type} (m : py A) (k : A -> py B) (w w' : world) (a : A) :
  m w = (Returned a, w') -> (m ≫= k) w = k a w'.
Proof. intros H. unfold mbind, py_bind. now rewrite H. Qed.

Lemma bind_raised {A B : Type} (m : py A) (k : A -> py B) (w w' : world) (e : exn) :
  m w = (Raised e, w') -> (m ≫= k) w = (Raised e, w').
Proof. intros H. unfold mbind, py_bind. now rewrite H. Qed.

Lemma getitem_entity_id (entity i : pyval) (w : world) :
  entity_id entity = Some i -> getitem entity "@iot.id" w = (Returned i, w).
Proof.
  destruct entity; simpl; try discriminate.
  intros ->. reflexivity.
Qed.

Lemma getitem_no_entity_id (entity : pyval) (w : world) :
  entity_id entity = None -> exists err, getitem entity "@iot.id" w = (Raised err, w).
Proof.
  destruct entity; simpl; intros H; try (eexists; reflexivity).
  rewrite H. eexists; reflexivity.
Qed.

Section Runs.

Variable url_join : list pyval -> string.
Variable to_json : pyval -> string.
Variable remote : service.

Lemma send_responds (q : request) (r : response) (w : world) :
  remote (calls w) q = Responds r -> send remote q w = (Returned r, with_calls w [q]).
Proof. intros H. unfold send. now rewrite H. Qed.

Lemma send_fails (q : request) (e : exn) (w : world) :
  remote (calls w) q = Fails e -> send remote q w = (Raised e, with_calls w [q]).
Proof. intros H. unfold send. now rewrite H. Qed.

Lemma upsert_call_request (sta_index method : string) (entity : pyval)
    (q : request) (w : world) :
  upsert_request to_json sta_index method entity = Some q ->
  upsert_call to_json remote sta_index method entity w = send remote q w.
Proof.
  unfold upsert_request, upsert_call.
  destruct (String.eqb method "PATCH") eqn:Hpatch.
  - apply String.eqb_eq in Hpatch as ->. simpl.
    destruct (entity_id entity) as [i|] eqn:Hid; [|discriminate].
    intros [= <-]. now rewrite (bind_returned _ _ w w i (getitem_entity_id _ _ _ Hid)).
  - destruct (String.eqb method "DELETE") eqn:Hdelete.
    + apply String.eqb_eq in Hdelete as ->. simpl.
      destruct (entity_id entity) as [i|] eqn:Hid; [|discriminate].
      intros [= <-]. now rewrite (bind_returned _ _ w w i (getitem_entity_id _ _ _ Hid)).
    + destruct (String.eqb method "POST"); [|discriminate].
      now intros [= <-].
Qed.

Lemma upsert_call_no_request (sta_index method : string) (entity : pyval) (w : world) :
  upsert_request to_json sta_index method entity = None ->
  exists err, upsert_call to_json remote sta_index method entity w = (Raised err, w).
Proof.
  unfold upsert_request, upsert_call.
  destruct (String.eqb method "PATCH") eqn:Hpatch.
  - apply String.eqb_eq in Hpatch as ->. simpl.
    destruct (entity_id entity) as [i|] eqn:Hid; [discriminate|]. intros _.
    destruct (getitem_no_entity_id entity w Hid) as [err Herr].
    exists err. now rewrite (bind_raised _ _ w w err Herr).
  - destruct (String.eqb method "DELETE") eqn:Hdelete.
    + apply String.eqb_eq in Hdelete as ->. simpl.
      destruct (entity_id entity) as [i|] eqn:Hid; [discriminate|]. intros _.
      destruct (getitem_no_entity_id entity w Hid) as [err Herr].
      exists err. now rewrite (bind_raised _ _ w w err Herr).
    + destruct (String.eqb method "POST"); [discriminate|].
      intros _. eexists; reflexivity.
Qed.

(** Items answered ok are gone through one call each, and the loop goes on
    with the items after them. *)
Lemma upsert_loop_ok_prefix (sta_index method : string) (done : list pyval)
    (qs : list request) :
  Forall2 (fun e q => upsert_request to_json sta_index method e = Some q) done qs ->
  forall (rs : list response) (later : list pyval) (w : world),
  answers remote (calls w) qs = map Responds rs ->
  Forall (fun r => ok r = true) rs ->
  upsert_loop to_json remote sta_index method (done ++ later)%list w
  = upsert_loop to_json remote sta_index method later (with_calls w qs).
Proof.
  induction 1 as [|e q done qs Hq _ IH]; intros rs later w Hans Hok.
  - now rewrite with_calls_nil.
  - destruct rs as [|r rs]; [discriminate|].
    simpl in Hans. injection Hans as Hr Hrest.
    apply Forall_cons in Hok as [Hokr Hok].
    simpl. erewrite bind_returned;
      [|rewrite (upsert_call_request _ _ _ _ _ Hq); apply send_responds, Hr].
    rewrite Hokr. simpl.
    rewrite (IH rs later (with_calls w [q]) Hrest Hok).
    now rewrite with_calls_app.
Qed.

(** Whatever the service does, the calls of a run are those asked for by a
    leading part of the batch, one per item and in order, and the log is
    left alone. *)
Lemma upsert_loop_calls (sta_index method : string) (items : list pyval) :
  forall w : world,
  exists (sent : list pyval) (qs : list request),
    sent `prefix_of` items /\
    Forall2 (fun e q => upsert_request to_json sta_index method e = Some q) sent qs /\
    snd (upsert_loop to_json remote sta_index method items w) = with_calls w qs.
Proof.
  induction items as [|e rest IH]; intros w.
  - exists [], []. repeat split; [apply prefix_nil|constructor|].
    simpl. now rewrite with_calls_nil.
  - destruct (upsert_request to_json sta_index method e) as [q|] eqn:Hq.
    + pose proof (upsert_call_request _ _ _ _ w Hq) as Hcall.
      destruct (remote (calls w) q) as [r|err] eqn:Hremote.
      * rewrite (send_responds _ _ _ Hremote) in Hcall.
        simpl. rewrite (bind_returned _ _ _ _ _ Hcall).
        destruct (ok r); simpl.
        -- destruct (IH (with_calls w [q])) as (sent & qs & Hpre & Hall & Hrun).
           exists (e :: sent), (q :: qs). repeat split.
           ++ now apply prefix_cons.
           ++ now constructor.
           ++ rewrite Hrun. now rewrite with_calls_app.
        -- exists [e], [q]. repeat split.
           ++ apply prefix_cons, prefix_nil.
           ++ repeat constructor. exact Hq.
      * rewrite (send_fails _ _ _ Hremote) in Hcall.
        simpl. rewrite (bind_raised _ _ _ _ _ Hcall).
        exists [e], [q]. repeat split.
        -- apply prefix_cons, prefix_nil.
        -- repeat constructor. exact Hq.
    + destruct (upsert_call_no_request _ _ _ w Hq) as [err Herr].
      simpl. rewrite (bind_raised _ _ _ _ _ Herr).
      exists [], []. repeat split; [apply prefix_nil|constructor|].
      simpl. now rewrite with_calls_nil.
Qed.

End Runs.

(** ** Upserting items *)

(** C2. [upsert_collection_items] goes through the batch in order with one
    call per item, the call the selector asks for ([upsert_request]: a POST
    of the serialized item to the collection endpoint, a PATCH or a DELETE
    to the parenthesized identifier of the item). When the items [done] are
    all answered ok, the run over [done] alone returns [True] after exactly
    those calls; and when the item after them is answered not ok, the run
    returns [False] after the call for that item, with no call for the
    items behind it. *)
Theorem upsert_dispatch_fail_fast
    (url_join : list pyval -> string) (to_json : pyval -> string)
    (remote : service) (self : SensorthingsBackend) (collection_id method : string)
    (done : list pyval) (qs : list request) (rs : list response) (w : world) :
  Forall2 (fun e q =>
             upsert_request to_json (sta_id url_join self collection_id) method e
             = Some q) done qs ->
  answers remote (calls w) qs = map Responds rs ->
  Forall (fun r => ok r = true) rs ->
  upsert_collection_items url_join to_json remote self collection_id done method w
  = (Returned true, with_calls w qs)
  /\
  forall (e : pyval) (q : request) (r : response) (later : list pyval),
    upsert_request to_json (sta_id url_join self collection_id) method e = Some q ->
    remote (calls w ++ qs)%list q = Responds r ->
    ok r = false ->
    upsert_collection_items url_join to_json remote self collection_id
      (done ++ e :: later)%list method w
    = (Returned false, with_calls w (qs ++ [q])%list).
Proof.
  intros Hqs Hans Hok. unfold upsert_collection_items. split.
  - rewrite <- (app_nil_r done) at 1.
    now rewrite (upsert_loop_ok_prefix _ _ _ _ _ _ Hqs rs [] w Hans Hok).
  - intros e q r later Hq Hr Hnot.
    rewrite (upsert_loop_ok_prefix _ _ _ _ _ _ Hqs rs (e :: later) w Hans Hok).
    simpl. erewrite bind_returned;
      [|rewrite (upsert_call_request _ _ _ _ _ _ _ Hq); apply send_responds, Hr].
    rewrite Hnot. simpl. now rewrite with_calls_app.
Qed.

(** A batch of three patched on a service that refuses the second item:
    two calls, [False], nothing for the third item. *)
Lemma upsert_dispatch_fail_fast_witness :
  let remote := Scenario.two_things (fun u =>
                  if String.eqb u "http://sta.example/v1.1/Things('2')" then 404 else 200) in
  upsert_collection_items Scenario.url_join Scenario.to_json remote Scenario.backend
    "wis2box.Things" [Scenario.thing 1] "PATCH" Scenario.fresh
  = (Returned true,
     with_calls Scenario.fresh
       [Request PATCH "http://sta.example/v1.1/Things('1')" (Some (Scenario.to_json (Scenario.thing 1)))])
  /\
  upsert_collection_items Scenario.url_join Scenario.to_json remote Scenario.backend
    "wis2box.Things" [Scenario.thing 1; Scenario.thing 2; Scenario.thing 3] "PATCH"
    Scenario.fresh
  = (Returned false,
     with_calls Scenario.fresh
       [Request PATCH "http://sta.example/v1.1/Things('1')" (Some (Scenario.to_json (Scenario.thing 1)));
        Request PATCH "http://sta.example/v1.1/Things('2')" (Some (Scenario.to_json (Scenario.thing 2)))]).
Proof.
  intros remote.
  destruct (upsert_dispatch_fail_fast Scenario.url_join Scenario.to_json remote
              Scenario.backend "wis2box.Things" "PATCH" [Scenario.thing 1]
              [Request PATCH "http://sta.example/v1.1/Things('1')" (Some (Scenario.to_json (Scenario.thing 1)))]
              [Scenario.plain 200] Scenario.fresh) as [Hall Hfast].
  - repeat constructor.
  - reflexivity.
  - repeat constructor.
  - split; [exact Hall|].
    apply (Hfast (Scenario.thing 2)
             (Request PATCH "http://sta.example/v1.1/Things('2')" (Some (Scenario.to_json (Scenario.thing 2))))
             (Scenario.plain 404) [Scenario.thing 3]); reflexivity.
Defined.

(** C9. With an empty batch, [upsert_collection_items] returns [True] for
    every method selector, the unsupported ones too: the selector is only
    looked at inside the loop, so nothing is raised and nothing is called. *)
Theorem upsert_empty_batch_true
    (url_join : list pyval -> string) (to_json : pyval -> string)
    (remote : service) (self : SensorthingsBackend) (collection_id method : string)
    (w : world) :
  upsert_collection_items url_join to_json remote self collection_id [] method w
  = (Returned true, w).
Proof. reflexivity. Qed.

(** C3, as stated, fails: an unsupported selector with an empty batch
    returns a result and raises nothing. *)
Lemma upsert_unsupported_method_counterexample :
  ~ (forall (url_join : list pyval -> string) (to_json : pyval -> string)
            (remote : service) (self : SensorthingsBackend)
            (collection_id : string) (items : list pyval) (method : string)
            (w : world),
        method <> "POST" -> method <> "PATCH" -> method <> "DELETE" ->
        exists msg,
          fst (upsert_collection_items url_join to_json remote self collection_id
                 items method w)
          = Raised (ValueError msg)).
Proof.
  intros claim.
  destruct (claim Scenario.url_join Scenario.to_json Scenario.unreachable
              Scenario.backend "wis2box.Things" [] "PUT" Scenario.fresh)
    as [msg Hmsg]; try discriminate.
Qed.

(** C3, amended. For every collection identifier and every batch that is
    not empty, a method selector outside POST, PATCH and DELETE makes
    [upsert_collection_items] raise [ValueError] at the first item, before
    any HTTP call, instead of returning a result. *)
Theorem upsert_unsupported_method_raises
    (url_join : list pyval -> string) (to_json : pyval -> string)
    (remote : service) (self : SensorthingsBackend) (collection_id : string)
    (items : list pyval) (method : string) (w : world) :
  items <> [] ->
  method <> "POST" -> method <> "PATCH" -> method <> "DELETE" ->
  upsert_collection_items url_join to_json remote self collection_id items method w
  = (Raised (ValueError ("Unsupported method: " +:+ method)), w).
Proof.
  intros Hitems Hpost Hpatch Hdelete.
  destruct items as [|entity rest]; [contradiction|].
  unfold upsert_collection_items. simpl. apply bind_raised.
  unfold upsert_call.
  apply String.eqb_neq in Hpost, Hpatch, Hdelete.
  now rewrite Hpatch, Hdelete, Hpost.
Qed.

Lemma upsert_unsupported_method_raises_witness :
  [Scenario.thing 1] <> [] /\
  upsert_collection_items Scenario.url_join Scenario.to_json Scenario.unreachable
    Scenario.backend "wis2box.Things" [Scenario.thing 1] "PUT" Scenario.fresh
  = (Raised (ValueError "Unsupported method: PUT"), Scenario.fresh).
Proof.
  split; [discriminate|].
  apply (upsert_unsupported_method_raises Scenario.url_join Scenario.to_json
           Scenario.unreachable Scenario.backend "wis2box.Things"
           [Scenario.thing 1] "PUT" Scenario.fresh); discriminate.
Defined.

(** A numeric and a textual identifier, patched and deleted. *)
Example upsert_quoting_run :
  let remote := Scenario.two_things (fun _ => 200) in
  let batch := [Scenario.thing 7; PDict [("@iot.id", PStr "ab")]] in
  map req_url
    (calls (snd (upsert_collection_items Scenario.url_join Scenario.to_json remote
                   Scenario.backend "Things" batch "PATCH" Scenario.fresh)))
  = ["http://sta.example/v1.1/Things('7')"; "http://sta.example/v1.1/Things('ab')"]
  /\
  map req_url
    (calls (snd (upsert_collection_items Scenario.url_join Scenario.to_json remote
                   Scenario.backend "Things" batch "DELETE" Scenario.fresh)))
  = ["http://sta.example/v1.1/Things(7)"; "http://sta.example/v1.1/Things(ab)"].
Proof. split; reflexivity. Qed.

(** ** Deleting a collection *)

Section DeleteRuns.

Variable remote : service.

(** Items whose DELETE is answered with status 200 are gone through one
    call each, and the loop goes on with the items after them. *)
Lemma delete_loop_200_prefix (sta_index : string) (done ids : list pyval) :
  Forall2 (fun item i => entity_id item = Some i) done ids ->
  forall (rs : list response) (later : list pyval) (w : world),
  answers remote (calls w) (map (delete_of sta_index) ids) = map Responds rs ->
  Forall (fun r => status_code r = 200) rs ->
  delete_collection_loop remote sta_index (done ++ later)%list w
  = delete_collection_loop remote sta_index later
      (with_calls w (map (delete_of sta_index) ids)).
Proof.
  induction 1 as [|item i done ids Hid _ IH]; intros rs later w Hans H200.
  - simpl. now rewrite with_calls_nil.
  - destruct rs as [|r rs]; [discriminate|].
    simpl in Hans. injection Hans as Hr Hrest.
    apply Forall_cons in H200 as [H200r H200].
    simpl.
    rewrite (bind_returned _ _ w w i (getitem_entity_id _ _ _ Hid)).
    rewrite (bind_returned _ _ _ _ _ (send_responds remote _ _ _ Hr)).
    rewrite H200r. simpl.
    rewrite (IH rs later (with_calls w [delete_of sta_index i]) Hrest H200).
    now rewrite with_calls_app.
Qed.

(** The item whose DELETE is answered with another status ends the loop:
    the failure is logged and [False] returned. *)
Lemma delete_loop_not_200 (sta_index : string) (item i : pyval) (r : response)
    (later : list pyval) (w : world) :
  entity_id item = Some i ->
  remote (calls w) (delete_of sta_index i) = Responds r ->
  status_code r <> 200 ->
  delete_collection_loop remote sta_index (item :: later) w
  = (Returned false,
     with_log (with_calls w [delete_of sta_index i])
       [(ERROR, "Failed to delete " +:+ py_str i +:+ ": "
                +:+ PyText.repr_bytes (content r))]).
Proof.
  intros Hid Hr Hnot. simpl.
  rewrite (bind_returned _ _ w w i (getitem_entity_id _ _ _ Hid)).
  rewrite (bind_returned _ _ _ _ _ (send_responds remote _ _ _ Hr)).
  apply Z.eqb_neq in Hnot. rewrite Hnot. simpl.
  rewrite (bind_returned _ _ _ _ i (getitem_entity_id _ _ _ Hid)).
  reflexivity.
Qed.

End DeleteRuns.

(** C1, as stated, fails: 204 is a success status, and a DELETE answered
    with it makes [delete_collection] return [False]. *)
Lemma delete_collection_success_status_counterexample :
  ~ (forall (url_join : list pyval -> string) (remote : service)
            (self : SensorthingsBackend) (collection_id : string)
            (listing : response) (body : list (string * pyval))
            (items ids : list pyval) (rs : list response) (w : world),
        remote (calls w) (Request GET (sta_id url_join self collection_id) None)
        = Responds listing ->
        json_body listing = Some (PDict body) ->
        dict_get body "value" = Some (PList items) ->
        Forall2 (fun item i => entity_id item = Some i) items ids ->
        answers remote
          (calls w ++ [Request GET (sta_id url_join self collection_id) None])%list
          (map (delete_of (sta_id url_join self collection_id)) ids)
        = map Responds rs ->
        Forall (fun r => success_status (status_code r) = true) rs ->
        fst (delete_collection url_join remote self collection_id w) = Returned true).
Proof.
  intros claim.
  specialize (claim Scenario.url_join (Scenario.two_things (fun _ => 204))
                Scenario.backend "wis2box.Things"
                (Scenario.listing [Scenario.thing 1; Scenario.thing 2])
                [("value", PList [Scenario.thing 1; Scenario.thing 2])]
                [Scenario.thing 1; Scenario.thing 2] [PInt 1; PInt 2]
                [Scenario.plain 204; Scenario.plain 204] Scenario.fresh).
  assert (Hrun : Returned false = Returned true :> result bool);
    [|discriminate Hrun].
  apply claim; try reflexivity; repeat constructor.
Qed.

(** C1, amended. [delete_collection] fetches the listing with a GET and
    then issues one DELETE per listed item, in list order, to the
    parenthesized identifier of the item. When the items [done] are all
    answered with status 200 and nothing is listed after them, it returns
    [True] after exactly those calls; when the item listed after them is
    answered with a status other than 200, it returns [False] after the
    DELETE for that item, logs the failure, and issues no DELETE for the
    items behind it. *)
Theorem delete_collection_fail_fast
    (url_join : list pyval -> string) (remote : service)
    (self : SensorthingsBackend) (collection_id : string)
    (listing : response) (body : list (string * pyval))
    (done later ids : list pyval) (rs : list response) (w : world) :
  remote (calls w) (Request GET (sta_id url_join self collection_id) None)
  = Responds listing ->
  json_body listing = Some (PDict body) ->
  dict_get body "value" = Some (PList (done ++ later)) ->
  Forall2 (fun item i => entity_id item = Some i) done ids ->
  answers remote
    (calls w ++ [Request GET (sta_id url_join self collection_id) None])%list
    (map (delete_of (sta_id url_join self collection_id)) ids)
  = map Responds rs ->
  Forall (fun r => status_code r = 200) rs ->
  (later = [] ->
   delete_collection url_join remote self collection_id w
   = (Returned true,
      with_calls w
        (Request GET (sta_id url_join self collection_id) None
           :: map (delete_of (sta_id url_join self collection_id)) ids)))
  /\
  (forall (item i : pyval) (r : response) (behind : list pyval),
     later = item :: behind ->
     entity_id item = Some i ->
     remote
       (calls w ++ Request GET (sta_id url_join self collection_id) None
          :: map (delete_of (sta_id url_join self collection_id)) ids)%list
       (delete_of (sta_id url_join self collection_id) i)
     = Responds r ->
     status_code r <> 200 ->
     delete_collection url_join remote self collection_id w
     = (Returned false,
        with_log
          (with_calls w
             (Request GET (sta_id url_join self collection_id) None
                :: map (delete_of (sta_id url_join self collection_id)) ids
                ++ [delete_of (sta_id url_join self collection_id) i]))
          [(ERROR, "Failed to delete " +:+ py_str i +:+ ": "
                   +:+ PyText.repr_bytes (content r))])).
Proof.
  intros Hget Hjson Hvalue Hids Hans H200.
  set (sta_index := sta_id url_join self collection_id) in *.
  assert (Hloop :
    delete_collection url_join remote self collection_id w
    = delete_collection_loop remote sta_index later
        (with_calls (with_calls w [Request GET sta_index None])
           (map (delete_of sta_index) ids))).
  { unfold delete_collection. fold sta_index.
    rewrite (bind_returned _ _ _ _ _ (send_responds remote _ _ _ Hget)).
    unfold json. rewrite Hjson.
    erewrite bind_returned; [|reflexivity].
    unfold getitem. rewrite Hvalue.
    erewrite bind_returned; [|reflexivity].
    erewrite bind_returned; [|reflexivity].
    apply (delete_loop_200_prefix remote sta_index done ids Hids rs later); assumption. }
  rewrite Hloop, with_calls_app. split.
  - intros ->. reflexivity.
  - intros item i r behind -> Hid Hr Hnot.
    rewrite (delete_loop_not_200 remote sta_index item i r behind
               (with_calls w ([Request GET sta_index None]
                              ++ map (delete_of sta_index) ids)%list) Hid Hr Hnot).
    now rewrite with_calls_app.
Qed.

(** The listing [[{"@iot.id":1},{"@iot.id":2}]]: when the second DELETE is
    answered 500, two DELETE calls and [False]; when both are answered 200,
    two DELETE calls and [True]. *)
Lemma delete_collection_fail_fast_witness :
  delete_collection Scenario.url_join
    (Scenario.two_things (fun u =>
       if String.eqb u "http://sta.example/v1.1/Things(2)" then 500 else 200))
    Scenario.backend "wis2box.Things" Scenario.fresh
  = (Returned false,
     {| calls := [Request GET "http://sta.example/v1.1/Things" None;
                  Request DELETE "http://sta.example/v1.1/Things(1)" None;
                  Request DELETE "http://sta.example/v1.1/Things(2)" None];
        log := [(ERROR, "Failed to delete 2: b''")] |})
  /\
  delete_collection Scenario.url_join (Scenario.two_things (fun _ => 200))
    Scenario.backend "wis2box.Things" Scenario.fresh
  = (Returned true,
     {| calls := [Request GET "http://sta.example/v1.1/Things" None;
                  Request DELETE "http://sta.example/v1.1/Things(1)" None;
                  Request DELETE "http://sta.example/v1.1/Things(2)" None];
        log := [] |}).
Proof.
  split.
  - refine (proj2 (delete_collection_fail_fast Scenario.url_join
             (Scenario.two_things (fun u =>
                if String.eqb u "http://sta.example/v1.1/Things(2)" then 500 else 200))
             Scenario.backend "wis2box.Things"
             (Scenario.listing [Scenario.thing 1; Scenario.thing 2])
             [("value", PList [Scenario.thing 1; Scenario.thing 2])]
             [Scenario.thing 1] [Scenario.thing 2] [PInt 1] [Scenario.plain 200]
             Scenario.fresh _ _ _ _ _ _)
           (Scenario.thing 2) (PInt 2) (Scenario.plain 500) [] _ _ _ _);
      try reflexivity; try (repeat constructor); discriminate.
  - refine (proj1 (delete_collection_fail_fast Scenario.url_join
             (Scenario.two_things (fun _ => 200))
             Scenario.backend "wis2box.Things"
             (Scenario.listing [Scenario.thing 1; Scenario.thing 2])
             [("value", PList [Scenario.thing 1; Scenario.thing 2])]
             [Scenario.thing 1; Scenario.thing 2] [] [PInt 1; PInt 2]
             [Scenario.plain 200; Scenario.plain 200]
             Scenario.fresh _ _ _ _ _ _) _);
      try reflexivity; repeat constructor.
Defined.

(** ** Deleting one item *)

(** The whole of a run: one DELETE, and the answer decides the result. *)
Lemma delete_collection_item_run
    (url_join : list pyval -> string) (remote : service)
    (self : SensorthingsBackend) (collection_id item_id : string) (w : world) :
  let q := Request DELETE
             (sta_id url_join self collection_id +:+ "(" +:+ item_segment item_id +:+ ")")
             None in
  let debug := (DEBUG, "Deleting " +:+ item_id +:+ " from " +:+ collection_id) in
  delete_collection_item url_join remote self collection_id item_id w
  = match remote (calls w) q with
    | Responds _ =>
        (Returned true, with_calls (with_log w [debug]) [q])
    | Fails err =>
        (Returned false,
         with_log (with_calls (with_log w [debug]) [q])
           [(ERROR, "Item deletion failed: " +:+ exn_str err)])
    end.
Proof.
  intros q debug. unfold delete_collection_item, item_segment in *.
  erewrite bind_returned; [|reflexivity].
  set (w1 := {| calls := calls w; log := (log w ++ [debug])%list |}).
  unfold py_int.
  destruct (PyText.parse_int item_id) as [z|].
  - erewrite bind_returned; [|reflexivity].
    unfold try_except, mbind, py_bind, http_delete, send. simpl calls.
    subst q. destruct (remote (calls w) _); reflexivity.
  - erewrite bind_returned; [|reflexivity].
    unfold try_except, mbind, py_bind, http_delete, send. simpl calls.
    subst q. destruct (remote (calls w) _); reflexivity.
Qed.

(** X24. [delete_collection_item] never raises: for every collection
    identifier and item identifier it issues one DELETE; when that call
    fails with an exception, the exception is caught, an error record with
    its text is logged and [False] is returned; when the call comes back
    with a response, of whatever status, [True] is returned. *)
Theorem delete_collection_item_never_raises
    (url_join : list pyval -> string) (remote : service)
    (self : SensorthingsBackend) (collection_id item_id : string) (w : world) :
  let q := Request DELETE
             (sta_id url_join self collection_id +:+ "(" +:+ item_segment item_id +:+ ")")
             None in
  let run := delete_collection_item url_join remote self collection_id item_id w in
  (forall e : exn, fst run <> Raised e)
  /\
  calls (snd run) = (calls w ++ [q])%list
  /\
  match remote (calls w) q with
  | Fails err =>
      fst run = Returned false /\
      log (snd run)
      = (log w ++ [(DEBUG, "Deleting " +:+ item_id +:+ " from " +:+ collection_id);
                   (ERROR, "Item deletion failed: " +:+ exn_str err)])%list
  | Responds _ =>
      fst run = Returned true /\
      log (snd run)
      = (log w ++ [(DEBUG, "Deleting " +:+ item_id +:+ " from " +:+ collection_id)])%list
  end.
Proof.
  intros q run.
  pose proof (delete_collection_item_run url_join remote self collection_id item_id w)
    as Hrun. cbv zeta in Hrun. fold q in Hrun. fold run in Hrun.
  rewrite Hrun. clear Hrun run.
  destruct (remote (calls w) q); simpl; repeat split; try discriminate.
  now rewrite <- app_assoc.
Qed.

(** An item deleted on a service out of reach, and on one that answers 404. *)
Example delete_collection_item_runs :
  delete_collection_item Scenario.url_join Scenario.unreachable
    Scenario.backend "wis2box.Things" "abc" Scenario.fresh
  = (Returned false,
     {| calls := [Request DELETE "http://sta.example/v1.1/Things('abc')" None];
        log := [(DEBUG, "Deleting abc from wis2box.Things");
                (ERROR, "Item deletion failed: Connection refused")] |})
  /\
  delete_collection_item Scenario.url_join (Scenario.two_things (fun _ => 404))
    Scenario.backend "wis2box.Things" "007" Scenario.fresh
  = (Returned true,
     {| calls := [Request DELETE "http://sta.example/v1.1/Things(7)" None];
        log := [(DEBUG, "Deleting 007 from wis2box.Things")] |}).
Proof. split; reflexivity. Qed.

(** ** Numbers written and read back *)

Module PyIntFacts.
Import PyText.

Lemma append_nil_r (s : string) : s +:+ EmptyString = s.
Proof.
  induction s as [|c s IH]; [reflexivity|].
  change (String c (s +:+ EmptyString) = String c s). now rewrite IH.
Qed.

Lemma length_append (s1 s2 : string) :
  String.length (s1 +:+ s2) = (String.length s1 + String.length s2)%nat.
Proof.
  induction s1 as [|c s1 IH]; [reflexivity|].
  change (S (String.length (s1 +:+ s2)) = S (String.length s1 + String.length s2)).
  now rewrite IH.
Qed.

Lemma all_digits_app (s1 s2 : string) :
  all_digits (s1 +:+ s2) = all_digits s1 && all_digits s2.
Proof.
  induction s1 as [|c s1 IH]; [reflexivity|].
  change (is_digit c && all_digits (s1 +:+ s2)
          = is_digit c && all_digits s1 && all_digits s2).
  now rewrite IH, andb_assoc.
Qed.

Lemma digits_value_app (s1 s2 : string) (acc : Z) :
  digits_value acc (s1 +:+ s2) = digits_value (digits_value acc s1) s2.
Proof.
  revert acc. induction s1 as [|c s1 IH]; intros acc; [reflexivity|].
  change (digits_value (10 * acc + default 0 (digit_value c)) (s1 +:+ s2)
          = digits_value (digits_value (10 * acc + default 0 (digit_value c)) s1) s2).
  apply IH.
Qed.

Lemma digit_value_pretty_char (d : N) :
  (d < 10)%N -> digit_value (pretty_N_char d) = Some (Z.of_N d).
Proof.
  intros Hd.
  destruct d as [|p]; [reflexivity|].
  do 4 (destruct p as [p|p|]; try reflexivity; try lia).
Qed.

(** The digits [pretty] puts in front of [s] spell the number. *)
Lemma pretty_N_go_digits (x : N) :
  forall s : string,
  exists pre : string,
    pretty_N_go x s = pre +:+ s /\
    all_digits pre = true /\
    digits_value 0 pre = Z.of_N x /\
    ((0 < x)%N -> pre <> EmptyString).
Proof.
  induction x as [x IH] using (well_founded_induction N.lt_wf_0). intros s.
  destruct (N.eq_dec x 0%N) as [->|Hpos].
  - exists EmptyString. repeat split; try reflexivity. lia.
  - assert (Hx : (0 < x)%N) by lia.
    rewrite (pretty_N_go_step x s Hx).
    assert (Hlt : (x `div` 10 < x)%N) by (apply N.div_lt; lia).
    destruct (IH _ Hlt (String (pretty_N_char (x `mod` 10)) s))
      as (pre & Hgo & Hall & Hval & _).
    assert (Hmod : (x `mod` 10 < 10)%N) by (apply N.mod_lt; lia).
    pose proof (digit_value_pretty_char _ Hmod) as Hchar.
    exists (pre +:+ String (pretty_N_char (x `mod` 10)) EmptyString).
    repeat split.
    + rewrite Hgo. now rewrite PyTextFacts.append_assoc.
    + rewrite all_digits_app, Hall. simpl. unfold is_digit. now rewrite Hchar.
    + rewrite digits_value_app, Hval. simpl. rewrite Hchar. simpl.
      pose proof (N.div_mod x 10 ltac:(lia)) as Hdm. lia.
    + intros _ Hnil.
      apply (f_equal String.length) in Hnil. rewrite length_append in Hnil.
      simpl in Hnil. lia.
Qed.

Lemma pretty_positive_digits (p : positive) :
  purely_numeric (pretty p) = true /\ digits_value 0 (pretty p) = Zpos p.
Proof.
  unfold pretty, pretty_positive, pretty, pretty_N.
  destruct (decide (N.pos p = 0%N)) as [H|_]; [discriminate|].
  destruct (pretty_N_go_digits (N.pos p) EmptyString) as (pre & Hgo & Hall & Hval & Hne).
  rewrite Hgo, append_nil_r. split; [|exact Hval].
  destruct pre as [|c pre]; [now destruct Hne|exact Hall].
Qed.

Lemma parse_magnitude_purely_numeric (s : string) :
  purely_numeric s = true -> parse_magnitude s = Some (digits_value 0 s).
Proof.
  destruct s as [|c rest]; [discriminate|].
  unfold purely_numeric. simpl all_digits. intros H.
  apply andb_true_iff in H as [Hc Hrest].
  unfold parse_magnitude. simpl digits_value.
  unfold is_digit in Hc. destruct (digit_value c) as [d|]; [|discriminate].
  rewrite (PyTextFacts.scan_all_digits rest _ Hrest). reflexivity.
Qed.

(** [int(str(z)) == z] *)
Lemma parse_int_pretty (z : Z) : parse_int (pretty z) = Some z.
Proof.
  destruct z as [|p|p]; [reflexivity| |].
  - destruct (pretty_positive_digits p) as [Hnum Hval].
    change (pretty (Z.pos p)) with (pretty p).
    now rewrite (PyTextFacts.parse_int_purely_numeric _ Hnum), Hval.
  - destruct (pretty_positive_digits p) as [Hnum Hval].
    change (pretty (Z.neg p)) with (String "-" (pretty p)).
    unfold parse_int.
    rewrite (PyTextFacts.ascii_form_head "-" (pretty p) eq_refl).
    rewrite (PyTextFacts.ascii_form_digits (pretty p))
      by (destruct (pretty p); [discriminate|exact Hnum]).
    unfold long_from_string. simpl lstrip. simpl.
    now rewrite (parse_magnitude_purely_numeric _ Hnum), Hval.
Qed.

End PyIntFacts.

(** ** One turn of the loops *)

Section Turns.

Variable to_json : pyval -> string.
Variable remote : service.

Lemma upsert_turn_ok (sta_index method : string) (entity : pyval) (q : request)
    (r : response) (rest : list pyval) (w : world) :
  upsert_request to_json sta_index method entity = Some q ->
  remote (calls w) q = Responds r ->
  ok r = true ->
  upsert_loop to_json remote sta_index method (entity :: rest) w
  = upsert_loop to_json remote sta_index method rest (with_calls w [q]).
Proof.
  intros Hq Hr Hok. simpl.
  erewrite bind_returned;
    [|rewrite (upsert_call_request _ _ _ _ _ _ _ Hq); apply send_responds, Hr].
  now rewrite Hok.
Qed.

Lemma upsert_turn_not_ok (sta_index method : string) (entity : pyval) (q : request)
    (r : response) (rest : list pyval) (w : world) :
  upsert_request to_json sta_index method entity = Some q ->
  remote (calls w) q = Responds r ->
  ok r = false ->
  upsert_loop to_json remote sta_index method (entity :: rest) w
  = (Returned false, with_calls w [q]).
Proof.
  intros Hq Hr Hok. simpl.
  erewrite bind_returned;
    [|rewrite (upsert_call_request _ _ _ _ _ _ _ Hq); apply send_responds, Hr].
  now rewrite Hok.
Qed.

Lemma upsert_turn_fails (sta_index method : string) (entity : pyval) (q : request)
    (err : exn) (rest : list pyval) (w : world) :
  upsert_request to_json sta_index method entity = Some q ->
  remote (calls w) q = Fails err ->
  upsert_loop to_json remote sta_index method (entity :: rest) w
  = (Raised err, with_calls w [q]).
Proof.
  intros Hq Hr. simpl. apply bind_raised.
  rewrite (upsert_call_request _ _ _ _ _ _ _ Hq). apply send_fails, Hr.
Qed.

Lemma upsert_turn_no_request (sta_index method : string) (entity : pyval)
    (rest : list pyval) (w : world) :
  upsert_request to_json sta_index method entity = None ->
  exists err,
    upsert_loop to_json remote sta_index method (entity :: rest) w = (Raised err, w).
Proof.
  intros Hq. destruct (upsert_call_no_request to_json remote _ _ _ w Hq) as [err Herr].
  exists err. simpl. now apply bind_raised.
Qed.

Lemma delete_turn_200 (sta_index : string) (item i : pyval) (r : response)
    (rest : list pyval) (w : world) :
  entity_id item = Some i ->
  remote (calls w) (delete_of sta_index i) = Responds r ->
  status_code r = 200 ->
  delete_collection_loop remote sta_index (item :: rest) w
  = delete_collection_loop remote sta_index rest (with_calls w [delete_of sta_index i]).
Proof.
  intros Hid Hr H200. simpl.
  rewrite (bind_returned _ _ w w i (getitem_entity_id _ _ _ Hid)).
  rewrite (bind_returned _ _ _ _ _ (send_responds remote _ _ _ Hr)).
  now rewrite H200.
Qed.

Lemma delete_turn_fails (sta_index : string) (item i : pyval) (err : exn)
    (rest : list pyval) (w : world) :
  entity_id item = Some i ->
  remote (calls w) (delete_of sta_index i) = Fails err ->
  delete_collection_loop remote sta_index (item :: rest) w
  = (Raised err, with_calls w [delete_of sta_index i]).
Proof.
  intros Hid Hr. simpl.
  rewrite (bind_returned _ _ w w i (getitem_entity_id _ _ _ Hid)).
  apply bind_raised. apply (send_fails remote _ _ _ Hr).
Qed.

Lemma delete_turn_no_id (sta_index : string) (item : pyval) (rest : list pyval)
    (w : world) :
  entity_id item = None ->
  exists err,
    delete_collection_loop remote sta_index (item :: rest) w = (Raised err, w) /\
    (forall d, item = PDict d -> err = KeyError "@iot.id").
Proof.
  intros Hid. destruct item; simpl in Hid;
    try (eexists; split; [simpl; apply bind_raised; reflexivity|discriminate]).
  exists (KeyError "@iot.id"). split; [|reflexivity].
  simpl. apply bind_raised. simpl. now rewrite Hid.
Qed.

(** *** The upsert loop over two batches in a row *)

Lemma upsert_loop_app_true (sta_index method : string) (xs ys : list pyval) :
  forall w : world,
  fst (upsert_loop to_json remote sta_index method xs w) = Returned true ->
  upsert_loop to_json remote sta_index method (xs ++ ys)%list w
  = upsert_loop to_json remote sta_index method ys
      (snd (upsert_loop to_json remote sta_index method xs w)).
Proof.
  induction xs as [|e xs IH]; intros w Htrue; [reflexivity|].
  change ((e :: xs) ++ ys)%list with (e :: (xs ++ ys))%list.
  destruct (upsert_request to_json sta_index method e) as [q|] eqn:Hq.
  - destruct (remote (calls w) q) as [r|err] eqn:Hr.
    + destruct (ok r) eqn:Hok.
      * rewrite (upsert_turn_ok _ _ _ _ _ xs w Hq Hr Hok) in Htrue |- *.
        rewrite (upsert_turn_ok _ _ _ _ _ (xs ++ ys)%list w Hq Hr Hok).
        now apply IH.
      * rewrite (upsert_turn_not_ok _ _ _ _ _ _ w Hq Hr Hok) in Htrue. discriminate.
    + rewrite (upsert_turn_fails _ _ _ _ _ _ w Hq Hr) in Htrue. discriminate.
  - destruct (upsert_turn_no_request _ _ _ xs w Hq) as [err Herr].
    rewrite Herr in Htrue. discriminate.
Qed.

Lemma upsert_loop_app_stop (sta_index method : string) (xs ys : list pyval) :
  forall w : world,
  fst (upsert_loop to_json remote sta_index method xs w) <> Returned true ->
  upsert_loop to_json remote sta_index method (xs ++ ys)%list w
  = upsert_loop to_json remote sta_index method xs w.
Proof.
  induction xs as [|e xs IH]; intros w Hstop; [now destruct Hstop|].
  change ((e :: xs) ++ ys)%list with (e :: (xs ++ ys))%list.
  destruct (upsert_request to_json sta_index method e) as [q|] eqn:Hq.
  - destruct (remote (calls w) q) as [r|err] eqn:Hr.
    + destruct (ok r) eqn:Hok.
      * rewrite (upsert_turn_ok _ _ _ _ _ xs w Hq Hr Hok) in Hstop |- *.
        rewrite (upsert_turn_ok _ _ _ _ _ (xs ++ ys)%list w Hq Hr Hok).
        now apply IH.
      * now rewrite !(upsert_turn_not_ok _ _ _ _ _ _ w Hq Hr Hok).
    + now rewrite !(upsert_turn_fails _ _ _ _ _ _ w Hq Hr).
  - destruct (upsert_call_no_request to_json remote _ _ _ w Hq) as [err Herr].
    simpl. now rewrite !(bind_raised _ _ _ _ _ Herr).
Qed.

(** What a [True] of the upsert loop stands for. *)
Lemma upsert_loop_true_inv (sta_index method : string) (items : list pyval) :
  forall w : world,
  fst (upsert_loop to_json remote sta_index method items w) = Returned true ->
  exists (qs : list request) (rs : list response),
    Forall2 (fun e q => upsert_request to_json sta_index method e = Some q) items qs /\
    answers remote (calls w) qs = map Responds rs /\
    Forall (fun r => ok r = true) rs /\
    snd (upsert_loop to_json remote sta_index method items w) = with_calls w qs.
Proof.
  induction items as [|e rest IH]; intros w Htrue.
  - exists [], []. repeat split; try constructor. simpl. now rewrite with_calls_nil.
  - destruct (upsert_request to_json sta_index method e) as [q|] eqn:Hq.
    + destruct (remote (calls w) q) as [r|err] eqn:Hr.
      * destruct (ok r) eqn:Hok.
        -- rewrite (upsert_turn_ok _ _ _ _ _ _ w Hq Hr Hok) in Htrue |- *.
           destruct (IH _ Htrue) as (qs & rs & Hall & Hans & Hoks & Hrun).
           exists (q :: qs), (r :: rs). repeat split.
           ++ now constructor.
           ++ simpl in Hans |- *. now rewrite Hr, Hans.
           ++ now constructor.
           ++ rewrite Hrun. now rewrite with_calls_app.
        -- rewrite (upsert_turn_not_ok _ _ _ _ _ _ w Hq Hr Hok) in Htrue. discriminate.
      * rewrite (upsert_turn_fails _ _ _ _ _ _ w Hq Hr) in Htrue. discriminate.
    + destruct (upsert_turn_no_request _ _ _ rest w Hq) as [err Herr].
      rewrite Herr in Htrue. discriminate.
Qed.

(** What a [False] of the upsert loop stands for. *)
Lemma upsert_loop_false_inv (sta_index method : string) (items : list pyval) :
  forall w : world,
  fst (upsert_loop to_json remote sta_index method items w) = Returned false ->
  exists (qs : list request) (q : request) (r : response),
    calls (snd (upsert_loop to_json remote sta_index method items w))
    = (calls w ++ qs ++ [q])%list /\
    remote (calls w ++ qs)%list q = Responds r /\
    ok r = false.
Proof.
  induction items as [|e rest IH]; intros w Hfalse; [discriminate|].
  destruct (upsert_request to_json sta_index method e) as [q|] eqn:Hq.
  - destruct (remote (calls w) q) as [r|err] eqn:Hr.
    + destruct (ok r) eqn:Hok.
      * rewrite (upsert_turn_ok _ _ _ _ _ _ w Hq Hr Hok) in Hfalse |- *.
        destruct (IH _ Hfalse) as (qs & q' & r' & Hcalls & Hr' & Hok').
        exists (q :: qs), q', r'. split; [|split; [|exact Hok']].
        -- rewrite Hcalls. simpl. now rewrite <- app_assoc.
        -- simpl in Hr'. now rewrite <- app_assoc in Hr'.
      * rewrite (upsert_turn_not_ok _ _ _ _ _ _ w Hq Hr Hok).
        exists [], q, r. split; [reflexivity|]. split; [|exact Hok].
        simpl. now rewrite app_nil_r.
    + rewrite (upsert_turn_fails _ _ _ _ _ _ w Hq Hr) in Hfalse. discriminate.
  - destruct (upsert_turn_no_request _ _ _ rest w Hq) as [err Herr].
    rewrite Herr in Hfalse. discriminate.
Qed.

End Turns.

(** ** More on upserting *)

(** X1. A batch that upserts to [True] can be followed by another in the
    same call: upserting [xs ++ ys] is upserting [xs] and then [ys] from
    where the run over [xs] left the service. *)
Theorem upsert_batches_in_a_row
    (url_join : list pyval -> string) (to_json : pyval -> string)
    (remote : service) (self : SensorthingsBackend) (collection_id method : string)
    (xs ys : list pyval) (w : world) :
  fst (upsert_collection_items url_join to_json remote self collection_id xs method w)
  = Returned true ->
  upsert_collection_items url_join to_json remote self collection_id
    (xs ++ ys)%list method w
  = upsert_collection_items url_join to_json remote self collection_id ys method
      (snd (upsert_collection_items url_join to_json remote self collection_id
              xs method w)).
Proof. apply upsert_loop_app_true. Qed.

Lemma upsert_batches_in_a_row_witness :
  let remote := Scenario.two_things (fun _ => 201) in
  upsert_collection_items Scenario.url_join Scenario.to_json remote Scenario.backend
    "Things" ([Scenario.thing 1] ++ [Scenario.thing 2])%list "POST" Scenario.fresh
  = upsert_collection_items Scenario.url_join Scenario.to_json remote Scenario.backend
      "Things" [Scenario.thing 2] "POST"
      (snd (upsert_collection_items Scenario.url_join Scenario.to_json remote
              Scenario.backend "Things" [Scenario.thing 1] "POST" Scenario.fresh)).
Proof.
  intros remote.
  apply (upsert_batches_in_a_row Scenario.url_join Scenario.to_json remote
           Scenario.backend "Things" "POST" [Scenario.thing 1] [Scenario.thing 2]
           Scenario.fresh).
  reflexivity.
Defined.

(** X2. A batch that does not upsert to [True] (a response not ok, or an
    exception) hides whatever is appended to it: the run over [xs ++ ys]
    is the run over [xs], with no call for [ys]. *)
Theorem upsert_stops_at_failed_batch
    (url_join : list pyval -> string) (to_json : pyval -> string)
    (remote : service) (self : SensorthingsBackend) (collection_id method : string)
    (xs ys : list pyval) (w : world) :
  fst (upsert_collection_items url_join to_json remote self collection_id xs method w)
  <> Returned true ->
  upsert_collection_items url_join to_json remote self collection_id
    (xs ++ ys)%list method w
  = upsert_collection_items url_join to_json remote self collection_id xs method w.
Proof. apply upsert_loop_app_stop. Qed.

Lemma upsert_stops_at_failed_batch_witness :
  let remote := Scenario.two_things (fun _ => 409) in
  upsert_collection_items Scenario.url_join Scenario.to_json remote Scenario.backend
    "Things" ([Scenario.thing 1] ++ [Scenario.thing 2])%list "POST" Scenario.fresh
  = upsert_collection_items Scenario.url_join Scenario.to_json remote Scenario.backend
      "Things" [Scenario.thing 1] "POST" Scenario.fresh.
Proof.
  intros remote.
  apply (upsert_stops_at_failed_batch Scenario.url_join Scenario.to_json remote
           Scenario.backend "Things" "POST" [Scenario.thing 1] [Scenario.thing 2]
           Scenario.fresh).
  discriminate.
Defined.

(** X3. [True] from [upsert_collection_items] means that every item of the
    batch had its call, in order, that every call was answered, and that
    every answer was ok; nothing else was called and nothing logged. *)
Theorem upsert_true_means_all_ok
    (url_join : list pyval -> string) (to_json : pyval -> string)
    (remote : service) (self : SensorthingsBackend) (collection_id method : string)
    (items : list pyval) (w : world) :
  fst (upsert_collection_items url_join to_json remote self collection_id
         items method w) = Returned true ->
  exists (qs : list request) (rs : list response),
    Forall2 (fun e q =>
               upsert_request to_json (sta_id url_join self collection_id) method e
               = Some q) items qs /\
    answers remote (calls w) qs = map Responds rs /\
    Forall (fun r => ok r = true) rs /\
    snd (upsert_collection_items url_join to_json remote self collection_id
           items method w) = with_calls w qs.
Proof. apply upsert_loop_true_inv. Qed.

Lemma upsert_true_means_all_ok_witness :
  let remote := Scenario.two_things (fun _ => 201) in
  exists (qs : list request) (rs : list response),
    Forall2 (fun e q =>
               upsert_request Scenario.to_json
                 (sta_id Scenario.url_join Scenario.backend "Things") "DELETE" e
               = Some q) [Scenario.thing 1; Scenario.thing 2] qs /\
    answers remote (calls Scenario.fresh) qs = map Responds rs /\
    Forall (fun r => ok r = true) rs /\
    snd (upsert_collection_items Scenario.url_join Scenario.to_json remote
           Scenario.backend "Things" [Scenario.thing 1; Scenario.thing 2] "DELETE"
           Scenario.fresh) = with_calls Scenario.fresh qs.
Proof.
  intros remote.
  apply (upsert_true_means_all_ok Scenario.url_join Scenario.to_json remote
           Scenario.backend "Things" "DELETE" [Scenario.thing 1; Scenario.thing 2]
           Scenario.fresh).
  reflexivity.
Defined.

(** X4. [False] from [upsert_collection_items] means that the last call
    issued was answered with a response that is not ok. *)
Theorem upsert_false_means_response_not_ok
    (url_join : list pyval -> string) (to_json : pyval -> string)
    (remote : service) (self : SensorthingsBackend) (collection_id method : string)
    (items : list pyval) (w : world) :
  fst (upsert_collection_items url_join to_json remote self collection_id
         items method w) = Returned false ->
  exists (qs : list request) (q : request) (r : response),
    calls (snd (upsert_collection_items url_join to_json remote self collection_id
                  items method w)) = (calls w ++ qs ++ [q])%list /\
    remote (calls w ++ qs)%list q = Responds r /\
    ok r = false.
Proof. apply upsert_loop_false_inv. Qed.

Lemma upsert_false_means_response_not_ok_witness :
  let remote := Scenario.two_things (fun _ => 500) in
  exists (qs : list request) (q : request) (r : response),
    calls (snd (upsert_collection_items Scenario.url_join Scenario.to_json remote
                  Scenario.backend "Things" [Scenario.thing 1; Scenario.thing 2]
                  "PATCH" Scenario.fresh))
    = (calls Scenario.fresh ++ qs ++ [q])%list /\
    remote (calls Scenario.fresh ++ qs)%list q = Responds r /\
    ok r = false.
Proof.
  intros remote.
  apply (upsert_false_means_response_not_ok Scenario.url_join Scenario.to_json remote
           Scenario.backend "Things" "PATCH" [Scenario.thing 1; Scenario.thing 2]
           Scenario.fresh).
  reflexivity.
Defined.

(** X5. [upsert_collection_items] writes nothing to the log, whatever the
    batch, the selector and the answers of the service: a response that is
    not ok is turned into [False] without a record. *)
Theorem upsert_never_logs
    (url_join : list pyval -> string) (to_json : pyval -> string)
    (remote : service) (self : SensorthingsBackend) (collection_id method : string)
    (items : list pyval) (w : world) :
  log (snd (upsert_collection_items url_join to_json remote self collection_id
              items method w)) = log w.
Proof.
  unfold upsert_collection_items.
  destruct (upsert_loop_calls to_json remote (sta_id url_join self collection_id)
              method items w) as (_ & qs & _ & _ & Hrun).
  now rewrite Hrun.
Qed.

(** X6. An item that is a mapping without ["@iot.id"] stops a PATCH or
    DELETE run with [KeyError]: the items before it, all answered ok, keep
    their calls, and no call is issued for that item or the ones behind. *)
Theorem upsert_missing_id_raises
    (url_join : list pyval -> string) (to_json : pyval -> string)
    (remote : service) (self : SensorthingsBackend) (collection_id method : string)
    (done later : list pyval) (d : list (string * pyval))
    (qs : list request) (rs : list response) (w : world) :
  method = "PATCH" \/ method = "DELETE" ->
  dict_get d "@iot.id" = None ->
  Forall2 (fun e q =>
             upsert_request to_json (sta_id url_join self collection_id) method e
             = Some q) done qs ->
  answers remote (calls w) qs = map Responds rs ->
  Forall (fun r => ok r = true) rs ->
  upsert_collection_items url_join to_json remote self collection_id
    (done ++ PDict d :: later)%list method w
  = (Raised (KeyError "@iot.id"), with_calls w qs).
Proof.
  intros Hmethod Hid Hqs Hans Hok. unfold upsert_collection_items.
  rewrite (upsert_loop_ok_prefix _ _ _ _ _ _ Hqs rs (PDict d :: later) w Hans Hok).
  simpl. apply bind_raised. unfold upsert_call.
  destruct Hmethod as [-> | ->]; simpl; apply bind_raised; simpl; now rewrite Hid.
Qed.

Lemma upsert_missing_id_raises_witness :
  let remote := Scenario.two_things (fun _ => 200) in
  upsert_collection_items Scenario.url_join Scenario.to_json remote Scenario.backend
    "Things" ([Scenario.thing 1] ++ PDict [("name", PStr "probe")] :: [Scenario.thing 3])%list
    "DELETE" Scenario.fresh
  = (Raised (KeyError "@iot.id"),
     with_calls Scenario.fresh
       [Request DELETE "http://sta.example/v1.1/Things(1)" None]).
Proof.
  intros remote.
  apply (upsert_missing_id_raises Scenario.url_join Scenario.to_json remote
           Scenario.backend "Things" "DELETE" [Scenario.thing 1] [Scenario.thing 3]
           [("name", PStr "probe")]
           [Request DELETE "http://sta.example/v1.1/Things(1)" None]
           [Scenario.plain 200] Scenario.fresh).
  - now right.
  - reflexivity.
  - repeat constructor.
  - reflexivity.
  - repeat constructor.
Defined.

(** X7. An exception raised by the session during an upsert is not turned
    into [False]: it reaches the caller, after the call that raised it and
    with no call for the items behind. *)
Theorem upsert_transport_failure_propagates
    (url_join : list pyval -> string) (to_json : pyval -> string)
    (remote : service) (self : SensorthingsBackend) (collection_id method : string)
    (done later : list pyval) (e : pyval) (q : request) (err : exn)
    (qs : list request) (rs : list response) (w : world) :
  Forall2 (fun e q =>
             upsert_request to_json (sta_id url_join self collection_id) method e
             = Some q) done qs ->
  answers remote (calls w) qs = map Responds rs ->
  Forall (fun r => ok r = true) rs ->
  upsert_request to_json (sta_id url_join self collection_id) method e = Some q ->
  remote (calls w ++ qs)%list q = Fails err ->
  upsert_collection_items url_join to_json remote self collection_id
    (done ++ e :: later)%list method w
  = (Raised err, with_calls w (qs ++ [q])%list).
Proof.
  intros Hqs Hans Hok Hq Hr. unfold upsert_collection_items.
  rewrite (upsert_loop_ok_prefix _ _ _ _ _ _ Hqs rs (e :: later) w Hans Hok).
  rewrite (upsert_turn_fails to_json remote _ _ _ q err later (with_calls w qs) Hq Hr).
  now rewrite with_calls_app.
Qed.

Lemma upsert_transport_failure_propagates_witness :
  upsert_collection_items Scenario.url_join Scenario.to_json Scenario.unreachable
    Scenario.backend "Things" ([] ++ Scenario.thing 1 :: [Scenario.thing 2])%list
    "POST" Scenario.fresh
  = (Raised (TransportError "Connection refused"),
     with_calls Scenario.fresh
       ([] ++ [Request POST "http://sta.example/v1.1/Things"
                 (Some (Scenario.to_json (Scenario.thing 1)))])%list).
Proof.
  apply (upsert_transport_failure_propagates Scenario.url_join Scenario.to_json
           Scenario.unreachable Scenario.backend "Things" "POST" []
           [Scenario.thing 2] (Scenario.thing 1)
           (Request POST "http://sta.example/v1.1/Things"
              (Some (Scenario.to_json (Scenario.thing 1))))
           (TransportError "Connection refused") [] [] Scenario.fresh);
    try reflexivity; constructor.
Defined.

(** X8. A POST run asks nothing of the items: whatever they are, the only
    exception it can end in is one raised by the session on the last call
    issued, which is a POST. *)
Theorem upsert_post_raises_only_transport
    (url_join : list pyval -> string) (to_json : pyval -> string)
    (remote : service) (self : SensorthingsBackend) (collection_id : string)
    (items : list pyval) (w : world) (err : exn) :
  fst (upsert_collection_items url_join to_json remote self collection_id
         items "POST" w) = Raised err ->
  exists (qs : list request) (q : request),
    calls (snd (upsert_collection_items url_join to_json remote self collection_id
                  items "POST" w)) = (calls w ++ qs ++ [q])%list /\
    req_verb q = POST /\
    remote (calls w ++ qs)%list q = Fails err.
Proof.
  unfold upsert_collection_items.
  generalize (sta_id url_join self collection_id) as sta_index. intros sta_index.
  revert w. induction items as [|e rest IH]; intros w Hraised; [discriminate|].
  assert (Hq : upsert_request to_json sta_index "POST" e
               = Some (Request POST sta_index (Some (to_json e)))) by reflexivity.
  destruct (remote (calls w) (Request POST sta_index (Some (to_json e))))
    as [r|err'] eqn:Hr.
  - destruct (ok r) eqn:Hok.
    + rewrite (upsert_turn_ok _ _ _ _ _ _ _ rest w Hq Hr Hok) in Hraised |- *.
      destruct (IH _ Hraised) as (qs & q & Hcalls & Hverb & Hfail).
      exists (Request POST sta_index (Some (to_json e)) :: qs), q.
      split; [|split; [exact Hverb|]].
      * rewrite Hcalls. simpl. now rewrite <- app_assoc.
      * simpl in Hfail. now rewrite <- app_assoc in Hfail.
    + rewrite (upsert_turn_not_ok _ _ _ _ _ _ _ rest w Hq Hr Hok) in Hraised.
      discriminate.
  - rewrite (upsert_turn_fails _ _ _ _ _ _ _ rest w Hq Hr) in Hraised |- *.
    injection Hraised as <-.
    exists [], (Request POST sta_index (Some (to_json e))).
    split; [reflexivity|]. split; [reflexivity|].
    simpl. now rewrite app_nil_r.
Qed.

Lemma upsert_post_raises_only_transport_witness :
  exists (qs : list request) (q : request),
    calls (snd (upsert_collection_items Scenario.url_join Scenario.to_json
                  Scenario.unreachable Scenario.backend "Things"
                  [PNone; PStr "loose"] "POST" Scenario.fresh))
    = (calls Scenario.fresh ++ qs ++ [q])%list /\
    req_verb q = POST /\
    Scenario.unreachable (calls Scenario.fresh ++ qs)%list q
    = Fails (TransportError "Connection refused").
Proof.
  apply (upsert_post_raises_only_transport Scenario.url_join Scenario.to_json
           Scenario.unreachable Scenario.backend "Things" [PNone; PStr "loose"]
           Scenario.fresh (TransportError "Connection refused")).
  reflexivity.
Defined.

(** ** More on deleting a collection *)

Section DeleteAnyService.

Variable url_join : list pyval -> string.
Variable remote : service.

(** A well-formed listing hands its items to the loop. *)
Lemma delete_collection_listed (self : SensorthingsBackend) (collection_id : string)
    (listing : response) (body : list (string * pyval)) (items : list pyval)
    (w : world) :
  remote (calls w) (Request GET (sta_id url_join self collection_id) None)
  = Responds listing ->
  json_body listing = Some (PDict body) ->
  dict_get body "value" = Some (PList items) ->
  delete_collection url_join remote self collection_id w
  = delete_collection_loop remote (sta_id url_join self collection_id) items
      (with_calls w [Request GET (sta_id url_join self collection_id) None]).
Proof.
  intros Hget Hjson Hvalue. unfold delete_collection.
  rewrite (bind_returned _ _ _ _ _ (send_responds remote _ _ _ Hget)).
  unfold json. rewrite Hjson.
  erewrite bind_returned; [|reflexivity].
  unfold getitem. rewrite Hvalue.
  erewrite bind_returned; [|reflexivity].
  erewrite bind_returned; [|reflexivity].
  reflexivity.
Qed.

(** Whatever the GET brings, the run either raises right after it or goes
    into the loop with some items. *)
Lemma delete_collection_entry (self : SensorthingsBackend) (collection_id : string)
    (w : world) :
  (exists e,
     delete_collection url_join remote self collection_id w
     = (Raised e,
        with_calls w [Request GET (sta_id url_join self collection_id) None]))
  \/
  (exists items,
     delete_collection url_join remote self collection_id w
     = delete_collection_loop remote (sta_id url_join self collection_id) items
         (with_calls w [Request GET (sta_id url_join self collection_id) None])).
Proof.
  unfold delete_collection.
  destruct (remote (calls w) (Request GET (sta_id url_join self collection_id) None))
    as [listing|e] eqn:Hget.
  - rewrite (bind_returned _ _ _ _ _ (send_responds remote _ _ _ Hget)).
    unfold json. destruct (json_body listing) as [v|].
    + erewrite bind_returned; [|reflexivity].
      destruct v as [| | | | |l|d];
        try (left; eexists; apply bind_raised; reflexivity).
      unfold getitem. destruct (dict_get d "value") as [value|].
      * erewrite bind_returned; [|reflexivity].
        destruct value as [| | | |s|l|d'];
          try (left; eexists; apply bind_raised; reflexivity);
          right; eexists; (erewrite bind_returned; [|reflexivity]); reflexivity.
      * left. eexists. apply bind_raised. reflexivity.
    + left. eexists. apply bind_raised. reflexivity.
  - left. exists e. apply bind_raised. apply (send_fails remote _ _ _ Hget).
Qed.

(** The calls of the loop are DELETEs for a leading part of the items. *)
Lemma delete_loop_calls (sta_index : string) (items : list pyval) :
  forall w : world,
  exists (sent ids : list pyval),
    sent `prefix_of` items /\
    Forall2 (fun item i => entity_id item = Some i) sent ids /\
    calls (snd (delete_collection_loop remote sta_index items w))
    = (calls w ++ map (delete_of sta_index) ids)%list.
Proof.
  induction items as [|item rest IH]; intros w.
  - exists [], []. repeat split; [apply prefix_nil|constructor|].
    simpl. now rewrite app_nil_r.
  - destruct (entity_id item) as [i|] eqn:Hid.
    + destruct (remote (calls w) (delete_of sta_index i)) as [r|err] eqn:Hr.
      * destruct (Z.eq_dec (status_code r) 200) as [H200|Hnot].
        -- rewrite (delete_turn_200 remote _ _ _ _ rest w Hid Hr H200).
           destruct (IH (with_calls w [delete_of sta_index i]))
             as (sent & ids & Hpre & Hall & Hcalls).
           exists (item :: sent), (i :: ids). repeat split.
           ++ now apply prefix_cons.
           ++ now constructor.
           ++ rewrite Hcalls. simpl. now rewrite <- app_assoc.
        -- rewrite (delete_loop_not_200 remote _ _ _ _ rest w Hid Hr Hnot).
           exists [item], [i]. repeat split.
           ++ apply prefix_cons, prefix_nil.
           ++ repeat constructor. exact Hid.
      * rewrite (delete_turn_fails remote _ _ _ _ rest w Hid Hr).
        exists [item], [i]. repeat split.
        -- apply prefix_cons, prefix_nil.
        -- repeat constructor. exact Hid.
    + destruct (delete_turn_no_id remote sta_index item rest w Hid) as (err & Herr & _).
      rewrite Herr. exists [], []. repeat split; [apply prefix_nil|constructor|].
      simpl. now rewrite app_nil_r.
Qed.

(** The loop logs one error record when it returns [False], and nothing
    otherwise. *)
Lemma delete_loop_log (sta_index : string) (items : list pyval) :
  forall w : world,
  (fst (delete_collection_loop remote sta_index items w) = Returned false /\
   exists msg,
     log (snd (delete_collection_loop remote sta_index items w))
     = (log w ++ [(ERROR, msg)])%list)
  \/
  (fst (delete_collection_loop remote sta_index items w) <> Returned false /\
   log (snd (delete_collection_loop remote sta_index items w)) = log w).
Proof.
  induction items as [|item rest IH]; intros w.
  - right. split; [discriminate|reflexivity].
  - destruct (entity_id item) as [i|] eqn:Hid.
    + destruct (remote (calls w) (delete_of sta_index i)) as [r|err] eqn:Hr.
      * destruct (Z.eq_dec (status_code r) 200) as [H200|Hnot].
        -- rewrite (delete_turn_200 remote _ _ _ _ rest w Hid Hr H200).
           apply (IH (with_calls w [delete_of sta_index i])).
        -- rewrite (delete_loop_not_200 remote _ _ _ _ rest w Hid Hr Hnot).
           left. split; [reflexivity|]. eexists. reflexivity.
      * rewrite (delete_turn_fails remote _ _ _ _ rest w Hid Hr).
        right. split; [discriminate|reflexivity].
    + destruct (delete_turn_no_id remote sta_index item rest w Hid) as (err & Herr & _).
      rewrite Herr. right. split; [discriminate|reflexivity].
Qed.

(** What a [True] of the loop stands for. *)
Lemma delete_loop_true_inv (sta_index : string) (items : list pyval) :
  forall w : world,
  fst (delete_collection_loop remote sta_index items w) = Returned true ->
  exists (ids : list pyval) (rs : list response),
    Forall2 (fun item i => entity_id item = Some i) items ids /\
    answers remote (calls w) (map (delete_of sta_index) ids) = map Responds rs /\
    Forall (fun r => status_code r = 200) rs /\
    snd (delete_collection_loop remote sta_index items w)
    = with_calls w (map (delete_of sta_index) ids).
Proof.
  induction items as [|item rest IH]; intros w Htrue.
  - exists [], []. repeat split; try constructor. simpl. now rewrite with_calls_nil.
  - destruct (entity_id item) as [i|] eqn:Hid.
    + destruct (remote (calls w) (delete_of sta_index i)) as [r|err] eqn:Hr.
      * destruct (Z.eq_dec (status_code r) 200) as [H200|Hnot].
        -- rewrite (delete_turn_200 remote _ _ _ _ rest w Hid Hr H200) in Htrue |- *.
           destruct (IH _ Htrue) as (ids & rs & Hall & Hans & H200s & Hrun).
           exists (i :: ids), (r :: rs). repeat split.
           ++ now constructor.
           ++ simpl in Hans |- *. now rewrite Hr, Hans.
           ++ now constructor.
           ++ rewrite Hrun. now rewrite with_calls_app.
        -- rewrite (delete_loop_not_200 remote _ _ _ _ rest w Hid Hr Hnot) in Htrue.
           discriminate.
      * rewrite (delete_turn_fails remote _ _ _ _ rest w Hid Hr) in Htrue. discriminate.
    + destruct (delete_turn_no_id remote sta_index item rest w Hid) as (err & Herr & _).
      rewrite Herr in Htrue. discriminate.
Qed.

End DeleteAnyService.

(** X9. When the GET of [delete_collection] raises, the exception reaches
    the caller: nothing is deleted and nothing logged. *)
Theorem delete_collection_get_failure_propagates
    (url_join : list pyval -> string) (remote : service)
    (self : SensorthingsBackend) (collection_id : string) (err : exn) (w : world) :
  remote (calls w) (Request GET (sta_id url_join self collection_id) None)
  = Fails err ->
  delete_collection url_join remote self collection_id w
  = (Raised err, with_calls w [Request GET (sta_id url_join self collection_id) None]).
Proof.
  intros Hget. unfold delete_collection.
  apply bind_raised. apply (send_fails remote _ _ _ Hget).
Qed.

Lemma delete_collection_get_failure_propagates_witness :
  delete_collection Scenario.url_join Scenario.unreachable Scenario.backend
    "wis2box.Things" Scenario.fresh
  = (Raised (TransportError "Connection refused"),
     with_calls Scenario.fresh [Request GET "http://sta.example/v1.1/Things" None]).
Proof.
  apply (delete_collection_get_failure_propagates Scenario.url_join
           Scenario.unreachable Scenario.backend "wis2box.Things"
           (TransportError "Connection refused") Scenario.fresh).
  reflexivity.
Defined.

(** X10. A listing that cannot be read stops [delete_collection] after the
    GET, before any DELETE: a body that is not JSON raises the decoding
    error of [.json()], and a JSON object without ["value"] raises
    [KeyError]. *)
Theorem delete_collection_unreadable_listing
    (url_join : list pyval -> string) (remote : service)
    (self : SensorthingsBackend) (collection_id : string)
    (listing : response) (w : world) :
  remote (calls w) (Request GET (sta_id url_join self collection_id) None)
  = Responds listing ->
  (json_body listing = None ->
   exists msg,
     delete_collection url_join remote self collection_id w
     = (Raised (JSONDecodeError msg),
        with_calls w [Request GET (sta_id url_join self collection_id) None]))
  /\
  (forall body,
     json_body listing = Some (PDict body) ->
     dict_get body "value" = None ->
     delete_collection url_join remote self collection_id w
     = (Raised (KeyError "value"),
        with_calls w [Request GET (sta_id url_join self collection_id) None])).
Proof.
  intros Hget. unfold delete_collection.
  rewrite (bind_returned _ _ _ _ _ (send_responds remote _ _ _ Hget)).
  split.
  - intros Hjson. eexists. apply bind_raised. unfold json. now rewrite Hjson.
  - intros body Hjson Hvalue. unfold json. rewrite Hjson.
    erewrite bind_returned; [|reflexivity].
    apply bind_raised. simpl. now rewrite Hvalue.
Qed.

Lemma delete_collection_unreadable_listing_witness :
  (exists msg,
     delete_collection Scenario.url_join
       (fun _ _ => Responds (Scenario.plain 200)) Scenario.backend "Things"
       Scenario.fresh
     = (Raised (JSONDecodeError msg),
        with_calls Scenario.fresh [Request GET "http://sta.example/v1.1/Things" None]))
  /\
  delete_collection Scenario.url_join
    (fun _ _ => Responds {| status_code := 200; content := "";
                            json_body := Some (PDict [("count", PInt 0)]) |})
    Scenario.backend "Things" Scenario.fresh
  = (Raised (KeyError "value"),
     with_calls Scenario.fresh [Request GET "http://sta.example/v1.1/Things" None]).
Proof.
  split.
  - apply (proj1 (delete_collection_unreadable_listing Scenario.url_join
                    (fun _ _ => Responds (Scenario.plain 200)) Scenario.backend
                    "Things" (Scenario.plain 200) Scenario.fresh eq_refl)).
    reflexivity.
  - apply (proj2 (delete_collection_unreadable_listing Scenario.url_join
                    (fun _ _ => Responds {| status_code := 200; content := "";
                                            json_body := Some (PDict [("count", PInt 0)]) |})
                    Scenario.backend "Things"
                    {| status_code := 200; content := "";
                       json_body := Some (PDict [("count", PInt 0)]) |}
                    Scenario.fresh eq_refl) [("count", PInt 0)]); reflexivity.
Defined.

(** X11. An empty listing makes [delete_collection] return [True] with the
    GET as its only call. *)
Theorem delete_collection_empty_listing
    (url_join : list pyval -> string) (remote : service)
    (self : SensorthingsBackend) (collection_id : string)
    (listing : response) (body : list (string * pyval)) (w : world) :
  remote (calls w) (Request GET (sta_id url_join self collection_id) None)
  = Responds listing ->
  json_body listing = Some (PDict body) ->
  dict_get body "value" = Some (PList []) ->
  delete_collection url_join remote self collection_id w
  = (Returned true,
     with_calls w [Request GET (sta_id url_join self collection_id) None]).
Proof.
  intros Hget Hjson Hvalue.
  now rewrite (delete_collection_listed url_join remote self collection_id
                 listing body [] w Hget Hjson Hvalue).
Qed.

Lemma delete_collection_empty_listing_witness :
  delete_collection Scenario.url_join (fun _ _ => Responds (Scenario.listing []))
    Scenario.backend "Things" Scenario.fresh
  = (Returned true,
     with_calls Scenario.fresh [Request GET "http://sta.example/v1.1/Things" None]).
Proof.
  apply (delete_collection_empty_listing Scenario.url_join
           (fun _ _ => Responds (Scenario.listing [])) Scenario.backend "Things"
           (Scenario.listing []) [("value", PList [])] Scenario.fresh);
    reflexivity.
Defined.

(** X12. A listed mapping without ["@iot.id"] stops [delete_collection]
    with [KeyError] once the items before it are deleted: their DELETEs,
    all answered 200, are not undone, and no DELETE is issued for that item
    or the ones behind. *)
Theorem delete_collection_item_without_id
    (url_join : list pyval -> string) (remote : service)
    (self : SensorthingsBackend) (collection_id : string)
    (listing : response) (body d : list (string * pyval))
    (done later ids : list pyval) (rs : list response) (w : world) :
  remote (calls w) (Request GET (sta_id url_join self collection_id) None)
  = Responds listing ->
  json_body listing = Some (PDict body) ->
  dict_get body "value" = Some (PList (done ++ PDict d :: later)) ->
  dict_get d "@iot.id" = None ->
  Forall2 (fun item i => entity_id item = Some i) done ids ->
  answers remote
    (calls w ++ [Request GET (sta_id url_join self collection_id) None])%list
    (map (delete_of (sta_id url_join self collection_id)) ids)
  = map Responds rs ->
  Forall (fun r => status_code r = 200) rs ->
  delete_collection url_join remote self collection_id w
  = (Raised (KeyError "@iot.id"),
     with_calls w
       (Request GET (sta_id url_join self collection_id) None
          :: map (delete_of (sta_id url_join self collection_id)) ids)).
Proof.
  intros Hget Hjson Hvalue Hid Hids Hans H200.
  rewrite (delete_collection_listed url_join remote self collection_id
             listing body _ w Hget Hjson Hvalue).
  rewrite (delete_loop_200_prefix remote _ done ids Hids rs (PDict d :: later)
             (with_calls w [Request GET (sta_id url_join self collection_id) None])
             Hans H200).
  rewrite with_calls_app.
  destruct (delete_turn_no_id remote (sta_id url_join self collection_id)
              (PDict d) later
              (with_calls w
                 ([Request GET (sta_id url_join self collection_id) None]
                  ++ map (delete_of (sta_id url_join self collection_id)) ids)%list)
              Hid) as (err & Herr & Hkey).
  rewrite Herr. now rewrite (Hkey d eq_refl).
Qed.

Lemma delete_collection_item_without_id_witness :
  delete_collection Scenario.url_join
    (fun _ q =>
       match req_verb q with
       | GET => Responds (Scenario.listing
                            [Scenario.thing 1; PDict [("name", PStr "probe")];
                             Scenario.thing 3])
       | _ => Responds (Scenario.plain 200)
       end)
    Scenario.backend "Things" Scenario.fresh
  = (Raised (KeyError "@iot.id"),
     with_calls Scenario.fresh
       [Request GET "http://sta.example/v1.1/Things" None;
        Request DELETE "http://sta.example/v1.1/Things(1)" None]).
Proof.
  apply (delete_collection_item_without_id Scenario.url_join _ Scenario.backend "Things"
           (Scenario.listing
              [Scenario.thing 1; PDict [("name", PStr "probe")]; Scenario.thing 3])
           [("value", PList [Scenario.thing 1; PDict [("name", PStr "probe")];
                             Scenario.thing 3])]
           [("name", PStr "probe")]
           [Scenario.thing 1] [Scenario.thing 3] [PInt 1] [Scenario.plain 200]
           Scenario.fresh); try reflexivity; repeat constructor.
Defined.

(** X13. An exception raised by a DELETE of [delete_collection] is not
    caught: it reaches the caller after the call that raised it, with the
    earlier deletions done, nothing logged and no DELETE for the items
    behind. *)
Theorem delete_collection_delete_failure_propagates
    (url_join : list pyval -> string) (remote : service)
    (self : SensorthingsBackend) (collection_id : string)
    (listing : response) (body : list (string * pyval))
    (done later ids : list pyval) (item i : pyval) (err : exn)
    (rs : list response) (w : world) :
  remote (calls w) (Request GET (sta_id url_join self collection_id) None)
  = Responds listing ->
  json_body listing = Some (PDict body) ->
  dict_get body "value" = Some (PList (done ++ item :: later)) ->
  Forall2 (fun item i => entity_id item = Some i) done ids ->
  answers remote
    (calls w ++ [Request GET (sta_id url_join self collection_id) None])%list
    (map (delete_of (sta_id url_join self collection_id)) ids)
  = map Responds rs ->
  Forall (fun r => status_code r = 200) rs ->
  entity_id item = Some i ->
  remote
    (calls w ++ Request GET (sta_id url_join self collection_id) None
       :: map (delete_of (sta_id url_join self collection_id)) ids)%list
    (delete_of (sta_id url_join self collection_id) i)
  = Fails err ->
  delete_collection url_join remote self collection_id w
  = (Raised err,
     with_calls w
       (Request GET (sta_id url_join self collection_id) None
          :: map (delete_of (sta_id url_join self collection_id)) ids
          ++ [delete_of (sta_id url_join self collection_id) i])).
Proof.
  intros Hget Hjson Hvalue Hids Hans H200 Hid Hfail.
  rewrite (delete_collection_listed url_join remote self collection_id
             listing body _ w Hget Hjson Hvalue).
  rewrite (delete_loop_200_prefix remote _ done ids Hids rs (item :: later)
             (with_calls w [Request GET (sta_id url_join self collection_id) None])
             Hans H200).
  rewrite with_calls_app.
  rewrite (delete_turn_fails remote (sta_id url_join self collection_id) item i err later
             (with_calls w
                ([Request GET (sta_id url_join self collection_id) None]
                 ++ map (delete_of (sta_id url_join self collection_id)) ids)%list)
             Hid Hfail).
  now rewrite with_calls_app.
Qed.

Lemma delete_collection_delete_failure_propagates_witness :
  delete_collection Scenario.url_join
    (fun _ q =>
       match req_verb q with
       | GET => Responds (Scenario.listing [Scenario.thing 1; Scenario.thing 2])
       | _ => Fails (TransportError "Read timed out")
       end)
    Scenario.backend "Things" Scenario.fresh
  = (Raised (TransportError "Read timed out"),
     with_calls Scenario.fresh
       [Request GET "http://sta.example/v1.1/Things" None;
        Request DELETE "http://sta.example/v1.1/Things(1)" None]).
Proof.
  apply (delete_collection_delete_failure_propagates Scenario.url_join _
           Scenario.backend "Things"
           (Scenario.listing [Scenario.thing 1; Scenario.thing 2])
           [("value", PList [Scenario.thing 1; Scenario.thing 2])]
           [] [Scenario.thing 2] [] (Scenario.thing 1) (PInt 1)
           (TransportError "Read timed out") [] Scenario.fresh);
    try reflexivity; constructor.
Defined.

(** X14. [True] from [delete_collection] on a listing means that every
    listed item carried an identifier, had its DELETE, in list order, and
    that every DELETE was answered with status 200; nothing was logged. *)
Theorem delete_collection_true_means_all_200
    (url_join : list pyval -> string) (remote : service)
    (self : SensorthingsBackend) (collection_id : string)
    (listing : response) (body : list (string * pyval))
    (items : list pyval) (w : world) :
  remote (calls w) (Request GET (sta_id url_join self collection_id) None)
  = Responds listing ->
  json_body listing = Some (PDict body) ->
  dict_get body "value" = Some (PList items) ->
  fst (delete_collection url_join remote self collection_id w) = Returned true ->
  exists (ids : list pyval) (rs : list response),
    Forall2 (fun item i => entity_id item = Some i) items ids /\
    answers remote
      (calls w ++ [Request GET (sta_id url_join self collection_id) None])%list
      (map (delete_of (sta_id url_join self collection_id)) ids)
    = map Responds rs /\
    Forall (fun r => status_code r = 200) rs /\
    snd (delete_collection url_join remote self collection_id w)
    = with_calls w
        (Request GET (sta_id url_join self collection_id) None
           :: map (delete_of (sta_id url_join self collection_id)) ids).
Proof.
  intros Hget Hjson Hvalue.
  rewrite (delete_collection_listed url_join remote self collection_id
             listing body items w Hget Hjson Hvalue).
  intros Htrue.
  destruct (delete_loop_true_inv remote _ items _ Htrue)
    as (ids & rs & Hids & Hans & H200 & Hrun).
  exists ids, rs. repeat split; try assumption.
  rewrite Hrun. now rewrite with_calls_app.
Qed.

Lemma delete_collection_true_means_all_200_witness :
  let remote := Scenario.two_things (fun _ => 200) in
  exists (ids : list pyval) (rs : list response),
    Forall2 (fun item i => entity_id item = Some i)
      [Scenario.thing 1; Scenario.thing 2] ids /\
    answers remote
      (calls Scenario.fresh
         ++ [Request GET (sta_id Scenario.url_join Scenario.backend "Things") None])%list
      (map (delete_of (sta_id Scenario.url_join Scenario.backend "Things")) ids)
    = map Responds rs /\
    Forall (fun r => status_code r = 200) rs /\
    snd (delete_collection Scenario.url_join remote Scenario.backend "Things"
           Scenario.fresh)
    = with_calls Scenario.fresh
        (Request GET (sta_id Scenario.url_join Scenario.backend "Things") None
           :: map (delete_of (sta_id Scenario.url_join Scenario.backend "Things")) ids).
Proof.
  intros remote.
  apply (delete_collection_true_means_all_200 Scenario.url_join remote
           Scenario.backend "Things"
           (Scenario.listing [Scenario.thing 1; Scenario.thing 2])
           [("value", PList [Scenario.thing 1; Scenario.thing 2])]
           [Scenario.thing 1; Scenario.thing 2] Scenario.fresh); reflexivity.
Defined.

(** X15. Whatever the service does, [delete_collection] writes one error
    record to the log exactly when it returns [False]; when it returns
    [True] or raises, the log is as it was. *)
Theorem delete_collection_logs_iff_false
    (url_join : list pyval -> string) (remote : service)
    (self : SensorthingsBackend) (collection_id : string) (w : world) :
  (fst (delete_collection url_join remote self collection_id w) = Returned false /\
   exists msg,
     log (snd (delete_collection url_join remote self collection_id w))
     = (log w ++ [(ERROR, msg)])%list)
  \/
  (fst (delete_collection url_join remote self collection_id w) <> Returned false /\
   log (snd (delete_collection url_join remote self collection_id w)) = log w).
Proof.
  destruct (delete_collection_entry url_join remote self collection_id w)
    as [[e Hentry] | [items Hentry]]; rewrite Hentry.
  - right. split; [discriminate|reflexivity].
  - apply (delete_loop_log remote (sta_id url_join self collection_id) items
             (with_calls w [Request GET (sta_id url_join self collection_id) None])).
Qed.

(** X16. Whatever the service does, the calls of [delete_collection] are
    one GET of the collection endpoint followed by DELETEs, each to that
    endpoint with a parenthesized identifier and without a body: it never
    posts, patches, or calls another resource. *)
Theorem delete_collection_calls_shape
    (url_join : list pyval -> string) (remote : service)
    (self : SensorthingsBackend) (collection_id : string) (w : world) :
  exists qs : list request,
    calls (snd (delete_collection url_join remote self collection_id w))
    = (calls w ++ Request GET (sta_id url_join self collection_id) None :: qs)%list /\
    Forall (fun q => exists i,
              q = Request DELETE
                    (sta_id url_join self collection_id +:+ "(" +:+ py_str i +:+ ")")
                    None) qs.
Proof.
  destruct (delete_collection_entry url_join remote self collection_id w)
    as [[e Hentry] | [items Hentry]]; rewrite Hentry.
  - exists []. split; [reflexivity|constructor].
  - destruct (delete_loop_calls remote (sta_id url_join self collection_id) items
                (with_calls w [Request GET (sta_id url_join self collection_id) None]))
      as (sent & ids & _ & _ & Hcalls).
    exists (map (delete_of (sta_id url_join self collection_id)) ids). split.
    + rewrite Hcalls. simpl. now rewrite <- app_assoc.
    + apply Forall_forall. intros q Hq.
      apply list_elem_of_In, in_map_iff in Hq as (i & <- & _).
      now exists i.
Qed.

(** X17. The two ways of deleting disagree on a status that is neither 200
    nor an error, such as 204: for one and the same DELETE answered so,
    [delete_collection] returns [False] and [upsert_collection_items] with
    the DELETE selector returns [True]. *)
Theorem deletion_paths_disagree
    (url_join : list pyval -> string) (to_json : pyval -> string)
    (remote : service) (self : SensorthingsBackend) (collection_id : string)
    (listing : response) (body : list (string * pyval))
    (item i : pyval) (r : response) (w w' : world) :
  remote (calls w) (Request GET (sta_id url_join self collection_id) None)
  = Responds listing ->
  json_body listing = Some (PDict body) ->
  dict_get body "value" = Some (PList [item]) ->
  entity_id item = Some i ->
  remote (calls w ++ [Request GET (sta_id url_join self collection_id) None])%list
    (delete_of (sta_id url_join self collection_id) i) = Responds r ->
  remote (calls w') (delete_of (sta_id url_join self collection_id) i) = Responds r ->
  status_code r <> 200 ->
  ok r = true ->
  fst (delete_collection url_join remote self collection_id w) = Returned false /\
  fst (upsert_collection_items url_join to_json remote self collection_id
         [item] "DELETE" w') = Returned true.
Proof.
  intros Hget Hjson Hvalue Hid Hr Hr' Hnot Hok. split.
  - rewrite (delete_collection_listed url_join remote self collection_id
               listing body [item] w Hget Hjson Hvalue).
    now rewrite (delete_loop_not_200 remote _ item i r []
                   (with_calls w [Request GET (sta_id url_join self collection_id) None])
                   Hid Hr Hnot).
  - unfold upsert_collection_items.
    assert (Hq : upsert_request to_json (sta_id url_join self collection_id)
                   "DELETE" item
                 = Some (delete_of (sta_id url_join self collection_id) i)).
    { unfold upsert_request. simpl. now rewrite Hid. }
    now rewrite (upsert_turn_ok to_json remote _ _ _ _ r [] w' Hq Hr' Hok).
Qed.

Lemma deletion_paths_disagree_witness :
  let remote : service := fun _ q =>
    match req_verb q with
    | GET => Responds (Scenario.listing [Scenario.thing 1])
    | _ => Responds (Scenario.plain 204)
    end in
  fst (delete_collection Scenario.url_join remote Scenario.backend "Things"
         Scenario.fresh) = Returned false /\
  fst (upsert_collection_items Scenario.url_join Scenario.to_json remote
         Scenario.backend "Things" [Scenario.thing 1] "DELETE" Scenario.fresh)
  = Returned true.
Proof.
  intros remote.
  apply (deletion_paths_disagree Scenario.url_join Scenario.to_json remote
           Scenario.backend "Things" (Scenario.listing [Scenario.thing 1])
           [("value", PList [Scenario.thing 1])] (Scenario.thing 1) (PInt 1)
           (Scenario.plain 204) Scenario.fresh Scenario.fresh);
    try reflexivity.
  discriminate.
Defined.

(** ** More on deleting one item, on endpoints and on [repr] *)

(** X18. An identifier that is the decimal text of an integer goes through
    [int] and back unchanged: [delete_collection_item] then issues the very
    DELETE that [delete_collection] and the DELETE selector of
    [upsert_collection_items] issue for an item whose ["@iot.id"] is that
    integer. *)
Theorem delete_collection_item_integer_id
    (url_join : list pyval -> string) (remote : service)
    (self : SensorthingsBackend) (collection_id : string) (z : Z) (w : world) :
  calls (snd (delete_collection_item url_join remote self collection_id
                (py_str (PInt z)) w))
  = (calls w ++ [delete_of (sta_id url_join self collection_id) (PInt z)])%list.
Proof.
  pose proof (delete_collection_item_run url_join remote self collection_id
                (py_str (PInt z)) w) as Hrun. cbv zeta in Hrun.
  rewrite Hrun. clear Hrun. unfold item_segment. simpl py_str.
  rewrite (PyIntFacts.parse_int_pretty z).
  destruct (remote (calls w) _); reflexivity.
Qed.

(** X19. For a textual identifier that [int] refuses, the single-item path
    and the batch paths do not address the same resource:
    [delete_collection_item] calls the quoted URL, the one a PATCH of
    [upsert_collection_items] uses, which differs from the bare URL that
    [delete_collection] and the DELETE selector use for that identifier. *)
Theorem delete_collection_item_text_id_quoted
    (url_join : list pyval -> string) (remote : service)
    (self : SensorthingsBackend) (collection_id item_id data : string) (w : world) :
  PyText.parse_int item_id = None ->
  exists q : request,
    calls (snd (delete_collection_item url_join remote self collection_id item_id w))
    = (calls w ++ [q])%list /\
    req_url q
    = req_url (patch_of (sta_id url_join self collection_id) data (PStr item_id)) /\
    req_url q
    <> req_url (delete_of (sta_id url_join self collection_id) (PStr item_id)).
Proof.
  intros Hnone.
  pose proof (delete_collection_item_run url_join remote self collection_id
                item_id w) as Hrun. cbv zeta in Hrun.
  unfold item_segment in Hrun. rewrite Hnone in Hrun. simpl py_str in Hrun.
  eexists. split; [|split].
  - rewrite Hrun. destruct (remote (calls w) _); reflexivity.
  - simpl. f_equal.
    change (String "(" (String "'" ((item_id +:+ "'") +:+ ")"))
            = String "(" (String "'" (item_id +:+ "')"))).
    now rewrite PyTextFacts.append_assoc.
  - simpl. intros Heq. apply (f_equal String.length) in Heq.
    rewrite !PyIntFacts.length_append in Heq. simpl in Heq. lia.
Qed.

Lemma delete_collection_item_text_id_quoted_witness :
  exists q : request,
    calls (snd (delete_collection_item Scenario.url_join Scenario.unreachable
                  Scenario.backend "Things" "station-7" Scenario.fresh))
    = (calls Scenario.fresh ++ [q])%list /\
    req_url q
    = req_url (patch_of (sta_id Scenario.url_join Scenario.backend "Things") ""
                 (PStr "station-7")) /\
    req_url q
    <> req_url (delete_of (sta_id Scenario.url_join Scenario.backend "Things")
                  (PStr "station-7")).
Proof.
  apply (delete_collection_item_text_id_quoted Scenario.url_join Scenario.unreachable
           Scenario.backend "Things" "station-7" "" Scenario.fresh).
  reflexivity.
Defined.

(** X20. [delete_collection_item] does not look at the status of the
    answer: for an integer identifier whose DELETE is answered with a
    response that is not ok, it returns [True], where
    [upsert_collection_items] with the DELETE selector returns [False] for
    the same call and the same answer. *)
Theorem delete_collection_item_ignores_status
    (url_join : list pyval -> string) (to_json : pyval -> string)
    (remote : service) (self : SensorthingsBackend) (collection_id : string)
    (z : Z) (entity : pyval) (r : response) (w : world) :
  entity_id entity = Some (PInt z) ->
  remote (calls w) (delete_of (sta_id url_join self collection_id) (PInt z))
  = Responds r ->
  ok r = false ->
  fst (delete_collection_item url_join remote self collection_id (py_str (PInt z)) w)
  = Returned true /\
  fst (upsert_collection_items url_join to_json remote self collection_id
         [entity] "DELETE" w) = Returned false.
Proof.
  intros Hid Hr Hok. split.
  - pose proof (delete_collection_item_run url_join remote self collection_id
                  (py_str (PInt z)) w) as Hrun. cbv zeta in Hrun.
    rewrite Hrun. clear Hrun. unfold item_segment. simpl py_str.
    rewrite (PyIntFacts.parse_int_pretty z).
    unfold delete_of in Hr. simpl py_str in Hr. now rewrite Hr.
  - unfold upsert_collection_items.
    assert (Hq : upsert_request to_json (sta_id url_join self collection_id)
                   "DELETE" entity
                 = Some (delete_of (sta_id url_join self collection_id) (PInt z))).
    { unfold upsert_request. simpl. now rewrite Hid. }
    now rewrite (upsert_turn_not_ok to_json remote _ _ _ _ r [] w Hq Hr Hok).
Qed.

Lemma delete_collection_item_ignores_status_witness :
  let remote := Scenario.two_things (fun _ => 404) in
  fst (delete_collection_item Scenario.url_join remote Scenario.backend "Things"
         (py_str (PInt 12)) Scenario.fresh) = Returned true /\
  fst (upsert_collection_items Scenario.url_join Scenario.to_json remote
         Scenario.backend "Things" [Scenario.thing 12] "DELETE" Scenario.fresh)
  = Returned false.
Proof.
  intros remote.
  apply (delete_collection_item_ignores_status Scenario.url_join Scenario.to_json
           remote Scenario.backend "Things" 12 (Scenario.thing 12)
           (Scenario.plain 404) Scenario.fresh); reflexivity.
Defined.

(** X21. An identifier that ends with a dot has the empty text as its last
    segment: [sta_id] joins the base URL with the empty text, whatever
    stands before the dot. *)
Theorem sta_id_trailing_dot
    (url_join : list pyval -> string) (self : SensorthingsBackend)
    (earlier : string) :
  sta_id url_join self (earlier +:+ ".")
  = url_join [PStr (url self); PStr EmptyString].
Proof.
  unfold sta_id.
  now rewrite (PyTextFacts.last_split_app "." earlier EmptyString eq_refl).
Qed.

Lemma split_segments_free (sep : ascii) (s : string) :
  Forall (fun seg => PyText.contains sep seg = false) (PyText.split sep s).
Proof.
  induction s as [|c rest IH]; simpl; [repeat constructor|].
  destruct (Ascii.eqb c sep) eqn:Hc; [now constructor|].
  destruct (PyText.split sep rest) as [|seg segs]; [repeat constructor; simpl; now rewrite Hc|].
  apply Forall_cons in IH as [Hseg Hsegs].
  constructor; [|exact Hsegs]. simpl. now rewrite Hc, Hseg.
Qed.

(** X22. For every identifier, with or without dots, the segment [sta_id]
    joins to the base URL has no dot in it, and resolving that segment on
    its own gives the same endpoint; an identifier without a dot, the empty
    one included, is that segment itself. *)
Theorem sta_id_segment_has_no_dot
    (url_join : list pyval -> string) (self : SensorthingsBackend)
    (collection_id : string) :
  exists entity : string,
    PyText.contains "." entity = false /\
    sta_id url_join self collection_id = url_join [PStr (url self); PStr entity] /\
    sta_id url_join self entity = sta_id url_join self collection_id /\
    (PyText.contains "." collection_id = false -> entity = collection_id).
Proof.
  exists (List.last (PyText.split "." collection_id) EmptyString).
  assert (Hfree : PyText.contains "."
                    (List.last (PyText.split "." collection_id) EmptyString) = false).
  { pose proof (split_segments_free "." collection_id) as Hall.
    pose proof (PyTextFacts.split_not_nil "." collection_id) as Hne.
    induction Hall as [|seg segs Hseg Hsegs IH]; [contradiction|].
    destruct segs as [|seg' segs]; [exact Hseg|]. apply IH. discriminate. }
  split; [exact Hfree|]. split; [reflexivity|]. split.
  - now rewrite (sta_id_no_dot url_join self _ Hfree).
  - intros Hnone. now rewrite (PyTextFacts.split_without_sep _ _ Hnone).
Qed.

Lemma sta_id_segment_has_no_dot_witness :
  exists entity : string,
    PyText.contains "." entity = false /\
    sta_id Scenario.url_join Scenario.backend "Datastreams"
    = Scenario.url_join [PStr (url Scenario.backend); PStr entity] /\
    sta_id Scenario.url_join Scenario.backend entity
    = sta_id Scenario.url_join Scenario.backend "Datastreams" /\
    entity = "Datastreams".
Proof.
  destruct (sta_id_segment_has_no_dot Scenario.url_join Scenario.backend "Datastreams")
    as (entity & Hfree & Hjoin & Hsame & Hwhole).
  exists entity. repeat split; try assumption.
  apply Hwhole. reflexivity.
Defined.

Lemma append_cancel_r (s1 s2 t : string) : s1 +:+ t = s2 +:+ t -> s1 = s2.
Proof.
  revert s2. induction s1 as [|c s1 IH]; intros [|c' s2] H.
  - reflexivity.
  - apply (f_equal String.length) in H.
    change (EmptyString +:+ t) with t in H.
    change (String c' s2 +:+ t) with (String c' (s2 +:+ t)) in H.
    simpl in H. rewrite PyIntFacts.length_append in H. lia.
  - apply (f_equal String.length) in H.
    change (EmptyString +:+ t) with t in H.
    change (String c s1 +:+ t) with (String c (s1 +:+ t)) in H.
    simpl in H. rewrite PyIntFacts.length_append in H. lia.
  - change (String c (s1 +:+ t) = String c' (s2 +:+ t)) in H.
    injection H as -> H. f_equal. now apply IH.
Qed.

(** X23. The text [__repr__] gives tells backends of different base URLs
    apart: equal texts come from equal URLs. *)
Theorem repr_tells_urls_apart (a b : SensorthingsBackend) :
  __repr__ a = __repr__ b -> url a = url b.
Proof.
  unfold __repr__. intros H.
  apply (inj (String.app "<SensorthingsBackend> (url=")) in H.
  now apply append_cancel_r in H.
Qed.

Lemma repr_tells_urls_apart_witness :
  url Scenario.backend
  = url (init Scenario.url_join
           [("timeout", PInt 30); ("url", PStr "http://sta.example/v1.1")]).
Proof.
  apply (repr_tells_urls_apart Scenario.backend
           (init Scenario.url_join
              [("timeout", PInt 30); ("url", PStr "http://sta.example/v1.1")])).
  reflexivity.
Defined.

(** ** The texts [int] accepts *)

Module PyIntGrammar.
Import PyText.









(** *** From the shape to the conversion *)






(** *** From the conversion to the shape *)






End PyIntGrammar.

(** ** The path of a single deletion *)




(** Identifiers with a no-break space before the digits, with a next-line
    character after them, and made of the Arabic-Indic digit three, all
    addressed bare. *)
Example delete_collection_item_unicode_runs :
  map (fun item_id =>
         map req_url
           (calls (snd (delete_collection_item Scenario.url_join Scenario.unreachable
                          Scenario.backend "Things" item_id Scenario.fresh))))
    [String "194" (String "160" "42");
     "42" +:+ String "194" (String "133" "");
     String "217" (String "163" "")]
  = [["http://sta.example/v1.1/Things(42)"];
     ["http://sta.example/v1.1/Things(42)"];
     ["http://sta.example/v1.1/Things(3)"]].
Proof. vm_compute. reflexivity. Qed.

(** C4. A DELETE answered with an error status is no failure for
    [delete_collection_item]: whatever the identifier, when the call comes
    back with a response that is not ok (a 404, a 500), the run returns
    [True] and logs no error, where the docstring has it return the result
    of the deletion and both batch paths return [False] on such an
    answer. *)
Theorem delete_collection_item_error_status_true
    (url_join : list pyval -> string) (remote : service)
    (self : SensorthingsBackend) (collection_id item_id : string)
    (r : response) (w : world) :
  remote (calls w)
    (Request DELETE
       (sta_id url_join self collection_id +:+ "(" +:+ item_segment item_id +:+ ")")
       None) = Responds r ->
  ok r = false ->
  delete_collection_item url_join remote self collection_id item_id w
  = (Returned true,
     {| calls := (calls w ++
                  [Request DELETE
                     (sta_id url_join self collection_id +:+ "("
                        +:+ item_segment item_id +:+ ")") None])%list;
        log := (log w ++
                [(DEBUG, "Deleting " +:+ item_id +:+ " from " +:+ collection_id)])%list |}).
Proof.
  intros Hr _.
  pose proof (delete_collection_item_run url_join remote self collection_id item_id w)
    as Hrun. cbv zeta in Hrun.
  rewrite Hrun, Hr. reflexivity.
Qed.

Lemma delete_collection_item_error_status_true_witness :
  delete_collection_item Scenario.url_join (Scenario.two_things (fun _ => 404))
    Scenario.backend "wis2box.Things" "7" Scenario.fresh
  = (Returned true,
     {| calls := [Request DELETE "http://sta.example/v1.1/Things(7)" None];
        log := [(DEBUG, "Deleting 7 from wis2box.Things")] |}).
Proof.
  apply (delete_collection_item_error_status_true Scenario.url_join
           (Scenario.two_things (fun _ => 404)) Scenario.backend "wis2box.Things"
           "7" (Scenario.plain 404) Scenario.fresh); reflexivity.
Defined.

(** ** Quoting in the upsert calls *)

Lemma patch_requests (to_json : pyval -> string) (sta_index : string)
    (done ids : list pyval) :
  Forall2 (fun x j => entity_id x = Some j) done ids ->
  Forall2 (fun x q => upsert_request to_json sta_index "PATCH" x = Some q) done
    (zip_with (fun x j => patch_of sta_index (to_json x) j) done ids).
Proof.
  induction 1 as [|x j done ids Hj _ IH]; simpl; constructor; [|exact IH].
  unfold upsert_request. simpl. now rewrite Hj.
Qed.

Lemma delete_requests (to_json : pyval -> string) (sta_index : string)
    (done ids : list pyval) :
  Forall2 (fun x j => entity_id x = Some j) done ids ->
  Forall2 (fun x q => upsert_request to_json sta_index "DELETE" x = Some q) done
    (map (delete_of sta_index) ids).
Proof.
  induction 1 as [|x j done ids Hj _ IH]; simpl; constructor; [|exact IH].
  unfold upsert_request. simpl. now rewrite Hj.
Qed.

(** Once the items before it are answered ok, an item gets the call its
    selector asks for, whatever comes of it. *)
Lemma upsert_loop_reaches (to_json : pyval -> string) (remote : service)
    (sta_index method : string) (done later : list pyval) (e : pyval)
    (qs : list request) (q : request) (rs : list response) (w : world) :
  Forall2 (fun x q => upsert_request to_json sta_index method x = Some q) done qs ->
  answers remote (calls w) qs = map Responds rs ->
  Forall (fun r => ok r = true) rs ->
  upsert_request to_json sta_index method e = Some q ->
  exists more : list request,
    calls (snd (upsert_loop to_json remote sta_index method (done ++ e :: later)%list w))
    = (calls w ++ qs ++ q :: more)%list.
Proof.
  intros Hqs Hans Hok Hq.
  rewrite (upsert_loop_ok_prefix to_json remote _ _ _ _ Hqs rs (e :: later) w Hans Hok).
  destruct (remote (calls (with_calls w qs)) q) as [r|err] eqn:Hr.
  - destruct (ok r) eqn:Hokr.
    + rewrite (upsert_turn_ok to_json remote _ _ _ _ r later _ Hq Hr Hokr).
      destruct (upsert_loop_calls to_json remote sta_index method later
                  (with_calls (with_calls w qs) [q])) as (_ & more & _ & _ & Hrun).
      exists more. rewrite Hrun. simpl. now rewrite <- !app_assoc.
    + rewrite (upsert_turn_not_ok to_json remote _ _ _ _ r later _ Hq Hr Hokr).
      exists []. simpl. now rewrite <- app_assoc.
  - rewrite (upsert_turn_fails to_json remote _ _ _ _ err later _ Hq Hr).
    exists []. simpl. now rewrite <- app_assoc.
Qed.

(** C10. In [upsert_collection_items] an item that carries an ["@iot.id"]
    and is reached (the items before it carry one and are answered ok) has
    its identifier between single quotes in the URL of its PATCH, and bare
    in the URL of its DELETE, as [str] shows it, numeric or not. And
    whatever the service does, every call of a PATCH run is such a quoted
    PATCH and every call of a DELETE run such a bare DELETE, for a leading
    part of the batch and in order. *)
Theorem upsert_identifier_quoting
    (url_join : list pyval -> string) (to_json : pyval -> string)
    (remote : service) (self : SensorthingsBackend) (collection_id : string)
    (items done later ids : list pyval) (e i : pyval)
    (patched deleted : list response) (w : world) :
  Forall2 (fun x j => entity_id x = Some j) done ids ->
  entity_id e = Some i ->
  answers remote (calls w)
    (zip_with (fun x j => patch_of (sta_id url_join self collection_id) (to_json x) j)
       done ids) = map Responds patched ->
  Forall (fun r => ok r = true) patched ->
  answers remote (calls w)
    (map (delete_of (sta_id url_join self collection_id)) ids) = map Responds deleted ->
  Forall (fun r => ok r = true) deleted ->
  (exists more : list request,
     calls (snd (upsert_collection_items url_join to_json remote self collection_id
                   (done ++ e :: later)%list "PATCH" w))
     = (calls w
        ++ zip_with (fun x j => patch_of (sta_id url_join self collection_id)
                                  (to_json x) j) done ids
        ++ Request PATCH
             (sta_id url_join self collection_id +:+ "('" +:+ py_str i +:+ "')")
             (Some (to_json e))
           :: more)%list)
  /\
  (exists more : list request,
     calls (snd (upsert_collection_items url_join to_json remote self collection_id
                   (done ++ e :: later)%list "DELETE" w))
     = (calls w
        ++ map (delete_of (sta_id url_join self collection_id)) ids
        ++ Request DELETE
             (sta_id url_join self collection_id +:+ "(" +:+ py_str i +:+ ")") None
           :: more)%list)
  /\
  (exists (sent : list pyval) (qs : list request),
      sent `prefix_of` items /\
      calls (snd (upsert_collection_items url_join to_json remote self
                    collection_id items "PATCH" w)) = (calls w ++ qs)%list /\
      Forall2 (fun x q =>
                 exists j, entity_id x = Some j /\
                   q = Request PATCH
                         (sta_id url_join self collection_id
                            +:+ "('" +:+ py_str j +:+ "')")
                         (Some (to_json x))) sent qs)
  /\
  (exists (sent : list pyval) (qs : list request),
      sent `prefix_of` items /\
      calls (snd (upsert_collection_items url_join to_json remote self
                    collection_id items "DELETE" w)) = (calls w ++ qs)%list /\
      Forall2 (fun x q =>
                 exists j, entity_id x = Some j /\
                   q = Request DELETE
                         (sta_id url_join self collection_id
                            +:+ "(" +:+ py_str j +:+ ")")
                         None) sent qs).
Proof.
  intros Hids Hid Hpatched Hokp Hdeleted Hokd.
  unfold upsert_collection_items.
  set (sta_index := sta_id url_join self collection_id) in *.
  split; [|split; [|split]].
  - apply (upsert_loop_reaches to_json remote sta_index "PATCH" done later e _
             (patch_of sta_index (to_json e) i) patched w
             (patch_requests to_json sta_index done ids Hids) Hpatched Hokp).
    unfold upsert_request. simpl. now rewrite Hid.
  - apply (upsert_loop_reaches to_json remote sta_index "DELETE" done later e _
             (delete_of sta_index i) deleted w
             (delete_requests to_json sta_index done ids Hids) Hdeleted Hokd).
    unfold upsert_request. simpl. now rewrite Hid.
  - destruct (upsert_loop_calls to_json remote sta_index "PATCH" items w)
      as (sent & qs & Hpre & Hall & Hrun).
    exists sent, qs. repeat split; [exact Hpre|now rewrite Hrun|].
    eapply Forall2_impl; [exact Hall|].
    intros x q. unfold upsert_request. simpl.
    destruct (entity_id x) as [j|]; [|discriminate].
    intros [= <-]. now exists j.
  - destruct (upsert_loop_calls to_json remote sta_index "DELETE" items w)
      as (sent & qs & Hpre & Hall & Hrun).
    exists sent, qs. repeat split; [exact Hpre|now rewrite Hrun|].
    eapply Forall2_impl; [exact Hall|].
    intros x q. unfold upsert_request. simpl.
    destruct (entity_id x) as [j|]; [|discriminate].
    intros [= <-]. now exists j.
Qed.

(** A numeric identifier and then a textual one: both quoted when
    patched, both bare when deleted. *)
Lemma upsert_identifier_quoting_witness :
  let remote := Scenario.two_things (fun _ => 200) in
  let named := PDict [("@iot.id", PStr "ab"); ("name", PStr "probe")] in
  (exists more : list request,
     calls (snd (upsert_collection_items Scenario.url_join Scenario.to_json remote
                   Scenario.backend "Things" ([Scenario.thing 7] ++ named :: [])%list
                   "PATCH" Scenario.fresh))
     = ([] ++ [Request PATCH "http://sta.example/v1.1/Things('7')"
                 (Some (Scenario.to_json (Scenario.thing 7)))]
           ++ Request PATCH "http://sta.example/v1.1/Things('ab')"
                (Some (Scenario.to_json named)) :: more)%list)
  /\
  (exists more : list request,
     calls (snd (upsert_collection_items Scenario.url_join Scenario.to_json remote
                   Scenario.backend "Things" ([Scenario.thing 7] ++ named :: [])%list
                   "DELETE" Scenario.fresh))
     = ([] ++ [Request DELETE "http://sta.example/v1.1/Things(7)" None]
           ++ Request DELETE "http://sta.example/v1.1/Things(ab)" None :: more)%list).
Proof.
  intros remote named.
  destruct (upsert_identifier_quoting Scenario.url_join Scenario.to_json remote
              Scenario.backend "Things" [] [Scenario.thing 7] [] [PInt 7]
              named (PStr "ab") [Scenario.plain 200] [Scenario.plain 200]
              Scenario.fresh) as (Hpatch & Hdelete & _).
  - repeat constructor.
  - reflexivity.
  - reflexivity.
  - repeat constructor.
  - reflexivity.
  - repeat constructor.
  - split; [exact Hpatch|exact Hdelete].
Defined.
